(** * ctlptl: the cluster controller and the [get] command

    A shallow embedding of [pkg/cluster/cluster.go] (the controller's client
    cache, [populateCluster] and [List]), of the test doubles of
    [pkg/cluster/cluster_test.go] and of the output transformation of
    [pkg/cmd/get.go], with the properties the specification states about
    them. *)

From Stdlib Require Import ZArith Lia Ascii.
From stdpp Require Import base option list strings gmap fin_maps pretty.

(** ** Go values shared by both packages *)

(** [time.Time], read as an instant: the nanoseconds elapsed since the zero
    instant (January 1, year 1, 00:00:00 UTC).  Instants before it are
    negative.  Only wall-clock readings occur here (node timestamps come from
    the API server), so comparison is comparison of instants. *)
Module Time.
Definition Time : Type := Z.

Definition zero : Time := 0%Z.

Definition IsZero (t : Time) : bool := (t =? 0)%Z.

Definition Before (t u : Time) : bool := (t <? u)%Z.

Definition minDuration : Z := (- 2 ^ 63)%Z.
Definition maxDuration : Z := (2 ^ 63 - 1)%Z.

(** [t.Sub(u)]: the duration [t - u], saturated to the range of an int64
    count of nanoseconds. *)
Definition Sub (t u : Time) : Z :=
  let d := (t - u)%Z in
  if (d <? minDuration)%Z then minDuration
  else if (maxDuration <? d)%Z then maxDuration
  else d.
End Time.

(** Go's [error] values.  The only classification the programs ask for is
    [errors.IsNotFound], which reads the reason of an API status error; every
    other error (for instance one made by [fmt.Errorf]) has no reason. *)
Inductive StatusReason :=
  | StatusReasonUnknown
  | StatusReasonUnauthorized
  | StatusReasonForbidden
  | StatusReasonNotFound
  | StatusReasonAlreadyExists
  | StatusReasonInvalid.

Inductive error :=
  | StatusError (reason : StatusReason) (message : string)
  | Errorf (message : string).

Definition Error (e : error) : string :=
  match e with
  | StatusError _ message => message
  | Errorf message => message
  end.

Definition IsNotFound (err : error) : bool :=
  match err with
  | StatusError StatusReasonNotFound _ => true
  | _ => false
  end.

(** The outcome of a call: a value, a non-nil [error], or a run-time panic
    (a failed type assertion, a write to a nil map). *)
Inductive result (A : Type) :=
  | Ok (a : A)
  | Err (e : error)
  | Panic (msg : string).
Arguments Ok {A} a.
Arguments Err {A} e.
Arguments Panic {A} msg.

(** Calls that read and update a state [S]; the state a failed call leaves
    behind is kept, as Go keeps the mutations made before a [return err]. *)
Definition M (S A : Type) : Type := S → result A * S.

Definition ret {S A} (a : A) : M S A := fun s => (Ok a, s).

Definition bind {S A B} (m : M S A) (k : A → M S B) : M S B :=
  fun s =>
    match m s with
    | (Ok a, s') => k a s'
    | (Err e, s') => (Err e, s')
    | (Panic msg, s') => (Panic msg, s')
    end.

Definition fail {S A} (e : error) : M S A := fun s => (Err e, s).
Definition panic {S A} (msg : string) : M S A := fun s => (Panic msg, s).
Definition gets {S A} (f : S → A) : M S A := fun s => (Ok (f s), s).
Definition modify {S} (f : S → S) : M S unit := fun s => (Ok tt, f s).

(** A library call returning [(value, error)]. *)
Definition call {S A} (r : A + error) : M S A :=
  match r with
  | inl a => ret a
  | inr e => fail e
  end.

(** Runs a call on one component of the state. *)
Definition zoom {S T A} (get : S → T) (set : T → S → S) (m : M T A) : M S A :=
  fun s => let '(r, t) := m (get s) in (r, set t s).

Declare Scope go_scope.
Delimit Scope go_scope with go.
Notation "'let*' x ':=' m 'in' k" := (bind m (fun x => k))
  (at level 10, x name, m at level 100, k at level 200) : go_scope.
Notation "'let*' ' pat ':=' m 'in' k" := (bind m (fun x => match x with pat => k end))
  (at level 10, pat pattern, m at level 100, k at level 200) : go_scope.
Notation "m ';;' k" := (bind m (fun _ => k))
  (at level 100, right associativity) : go_scope.
Open Scope go_scope.

(** ** The API types ([pkg/api], as the two packages use them) *)

Record TypeMeta := mkTypeMeta {
  APIVersion : string;
  Kind : string
}.

Record LocalRegistryHostingV1 := mkLocalRegistryHosting {
  Host : string;
  Help : string
}.

Record ClusterStatus := mkClusterStatus {
  CreationTimestamp : Time.Time;
  Current : bool;
  LocalRegistryHosting : option LocalRegistryHostingV1
}.

Record Cluster := mkCluster {
  Cluster_TypeMeta : TypeMeta;
  Name : string;
  Product : string;
  Registry : string;
  KubernetesVersion : string;
  MinCPUs : Z;
  Status : ClusterStatus
}.

(** The zero values Go gives to the fields a composite literal leaves out. *)
Definition zeroStatus : ClusterStatus :=
  mkClusterStatus Time.zero false None.

Definition withCreationTimestamp (t : Time.Time) (cluster : Cluster) : Cluster :=
  mkCluster (Cluster_TypeMeta cluster) (Name cluster) (Product cluster)
    (Registry cluster) (KubernetesVersion cluster) (MinCPUs cluster)
    (mkClusterStatus t (Current (Status cluster))
       (LocalRegistryHosting (Status cluster))).

Record RegistryStatus := mkRegistryStatus {
  Registry_CreationTimestamp : Time.Time;
  HostPort : Z;
  ContainerPort : Z;
  IPAddress : string;
  ContainerID : string;
  Networks : list string
}.

Record RegistryT := mkRegistry {
  Registry_Name : string;
  Registry_Status : RegistryStatus
}.

(** A node of a cluster, as far as [populateCluster] reads it. *)
Record Node := mkNode {
  Node_Name : string;
  Node_CreationTimestamp : Time.Time
}.

(** The kube-config records ([clientcmdapi]). *)
Record Context := mkContext {
  Context_Cluster : string;
  Context_AuthInfo : string;
  Context_Namespace : string
}.

Record KubeCluster := mkKubeCluster {
  Server : string
}.

Record Config := mkConfig {
  CurrentContext : string;
  Contexts : gmap string Context;
  Clusters : gmap string KubeCluster
}.

(** ** [pkg/cluster/cluster.go]: the client cache, [populateCluster], [List] *)

(** What a run leaves behind besides the controller's fields: the calls of
    [kubernetes.NewForConfig] and the lines handed to [klog]. *)
Inductive Event :=
  | EvNewForConfig (name : string)
  | EvKlog (line : string).

Section Controller.
(** The client libraries: [clientcmd]'s resolution of a context of the
    configuration into a REST configuration, the construction of a client
    from it, and the node query of a client. *)
Variables RestConfig Client : Type.
Variable ClientConfig : Config → string → RestConfig + error.
Variable NewForConfig : RestConfig → Client + error.
Variable Nodes_List : Client → list Node + error.
(** [productFromContext(ct).String()], of the package's product table. *)
Variable productFromContext : Context → string.

(** The [Controller] struct, with the [clients] map [ControllerWithConfig]
    allocates; its mutex orders concurrent callers and has no sequential
    content. *)
Record Controller := mkController {
  config : Config;
  clients : gmap string Client
}.

Record State := mkState {
  ctl : Controller;
  trace : list Event
}.

Definition ControllerWithConfig (config : Config) : Controller :=
  mkController config ∅.

Definition emit (ev : Event) : M State unit :=
  modify (fun s => mkState (ctl s) (trace s ++ [ev])).

Definition setClient (name : string) (client : Client) : M State unit :=
  modify (fun s =>
    mkState (mkController (config (ctl s)) (<[name := client]> (clients (ctl s))))
            (trace s)).

Definition client (name : string) : M State Client :=
  let* cached := gets (fun s => clients (ctl s) !! name) in
  match cached with
  | Some client => ret client
  | None =>
      let* cfg := gets (fun s => config (ctl s)) in
      let* restConfig := call (ClientConfig cfg name) in
      emit (EvNewForConfig name) ;;
      let* client := call (NewForConfig restConfig) in
      setClient name client ;;
      ret client
  end.

(** One turn of the loop over [nodes.Items]. *)
Definition minTimeStep (minTime : Time.Time) (node : Node) : Time.Time :=
  let cTime := Node_CreationTimestamp node in
  if Time.IsZero minTime || Time.Before cTime minTime then cTime else minTime.

Definition minNodeTime (nodes : list Node) : Time.Time :=
  fold_left minTimeStep nodes Time.zero.

(** [populateCluster] writes through its [*api.Cluster] argument: the
    pointee travels in the state, next to the controller. *)
Definition populateCluster : M (Cluster * State) unit :=
  let* name := gets (fun cs => Name (fst cs)) in
  let* client := zoom snd (fun s cs => (fst cs, s)) (client name) in
  let* nodes := call (Nodes_List client) in
  let minTime := minNodeTime nodes in
  modify (fun cs => (withCreationTimestamp minTime (fst cs), snd cs)).

Definition newCluster (name : string) (ct : Context) : Cluster :=
  mkCluster (mkTypeMeta "ctlptl.dev/v1alpha1" "Cluster") name
    (productFromContext ct) EmptyString EmptyString 0 zeroStatus.

Definition warning (name : string) (err : error) : string :=
  "WARNING: reading info off cluster " +:+ name +:+ ": " +:+ Error err.

(** The loop of [List] over the entries of [c.config.Contexts], in the
    order [range] visits them.  The pointer appended to [result] before
    [populateCluster] runs is the one it writes through, so the entry of
    the result is the cluster after the call. *)
Fixpoint List_range (entries : list (string * Context)) (result : list Cluster)
    : M State (list Cluster) :=
  match entries with
  | [] => ret result
  | (name, ct) :: rest =>
      fun s =>
        match populateCluster (newCluster name ct, s) with
        | (Ok _, (cluster, s')) => List_range rest (result ++ [cluster]) s'
        | (Err err, (cluster, s')) =>
            (emit (EvKlog (warning name err)) ;;
             List_range rest (result ++ [cluster])) s'
        | (Panic msg, (_, s')) => (Panic msg, s')
        end
  end.

(** Go leaves the order of [range] over a map open: [entries] is an
    enumeration of the recorded contexts, any one. *)
Definition range_of (m : gmap string Context) (entries : list (string * Context)) : Prop :=
  entries ≡ₚ map_to_list m.

(** [List], given the order [entries] in which its [range] visits
    [c.config.Contexts]. *)
Definition List (entries : list (string * Context)) : M State (list Cluster) :=
  List_range entries [].

(** *** The client cache *)

Lemma client_hit (name : string) (s : State) (cl : Client) :
  clients (ctl s) !! name = Some cl → client name s = (Ok cl, s).
Proof.
  intros Hhit. unfold client, bind, gets. cbn. by rewrite Hhit.
Qed.

(** What a call does on a miss, by the outcome of the two library calls. *)
Lemma client_miss (name : string) (s : State) :
  clients (ctl s) !! name = None →
  client name s =
    match ClientConfig (config (ctl s)) name with
    | inr e => (Err e, s)
    | inl restConfig =>
        let s1 := mkState (ctl s) (trace s ++ [EvNewForConfig name]) in
        match NewForConfig restConfig with
        | inr e => (Err e, s1)
        | inl cl =>
            (Ok cl,
             mkState (mkController (config (ctl s)) (<[name := cl]> (clients (ctl s))))
                     (trace s1))
        end
    end.
Proof.
  intros Hmiss. unfold client, bind, gets. cbn. rewrite Hmiss.
  destruct (ClientConfig _ name) as [restConfig|e]; cbn; [|done].
  by destruct (NewForConfig restConfig) as [cl|e].
Qed.

Lemma client_config (name : string) (s : State) :
  config (ctl (client name s).2) = config (ctl s).
Proof.
  destruct (clients (ctl s) !! name) as [cl|] eqn:Hc.
  - by rewrite (client_hit _ _ _ Hc).
  - rewrite (client_miss _ _ Hc).
    destruct (ClientConfig _ name) as [restConfig|e]; [|done].
    by destruct (NewForConfig restConfig).
Qed.

Lemma client_other (name n : string) (s : State) :
  n ≠ name → clients (ctl (client name s).2) !! n = clients (ctl s) !! n.
Proof.
  intros Hne. destruct (clients (ctl s) !! name) as [cl|] eqn:Hc.
  - by rewrite (client_hit _ _ _ Hc).
  - rewrite (client_miss _ _ Hc).
    destruct (ClientConfig _ name) as [restConfig|e]; [|done].
    destruct (NewForConfig restConfig); cbn; [|done].
    by rewrite lookup_insert_ne.
Qed.

Lemma client_keeps (name n : string) (s : State) (x : Client) :
  clients (ctl s) !! n = Some x → clients (ctl (client name s).2) !! n = Some x.
Proof.
  intros Hn. destruct (decide (n = name)) as [->|Hne].
  - by rewrite (client_hit _ _ _ Hn).
  - by rewrite client_other.
Qed.

Lemma client_Ok_cached (name : string) (s : State) (cl : Client) :
  (client name s).1 = Ok cl → clients (ctl (client name s).2) !! name = Some cl.
Proof.
  destruct (clients (ctl s) !! name) as [c0|] eqn:Hc.
  - rewrite (client_hit _ _ _ Hc). cbn. congruence.
  - rewrite (client_miss _ _ Hc).
    destruct (ClientConfig _ name) as [restConfig|e]; [|done].
    destruct (NewForConfig restConfig); cbn; [|done].
    intros [= ->]. by rewrite lookup_insert_eq.
Qed.

(** C8.  [client] builds a client for a name only when the cache has none:
    a call that succeeds on a miss calls [NewForConfig] once and stores the
    client under the name; from then on a call with that name returns the
    stored client and leaves the controller and the trace as they are, so
    nothing is built again, whatever the configuration has become in the
    meantime; and no call of [client], for any name, replaces or removes an
    entry the cache already holds. *)
Theorem client_cache_by_name (name : string) (s : State) (cl : Client) :
  (client name s).1 = Ok cl →
  let s1 := (client name s).2 in
  clients (ctl s1) !! name = Some cl
  ∧ (clients (ctl s) !! name = None →
       trace s1 = trace s ++ [EvNewForConfig name])
  ∧ (∀ (cfg' : Config) (tr' : list Event),
       let s2 := mkState (mkController cfg' (clients (ctl s1))) tr' in
       client name s2 = (Ok cl, s2))
  ∧ (∀ (name' n : string) (s' : State) (x : Client),
       clients (ctl s') !! n = Some x →
       clients (ctl (client name' s').2) !! n = Some x).
Proof.
  intros Hok s1.
  pose proof (client_Ok_cached _ _ _ Hok) as Hcached.
  split; [done|]. split; [|split].
  - intros Hmiss. subst s1. revert Hok. rewrite (client_miss _ _ Hmiss).
    destruct (ClientConfig _ name) as [restConfig|e]; [|done].
    by destruct (NewForConfig restConfig).
  - intros cfg' tr' s2. by apply client_hit.
  - intros name' n s' x. apply client_keeps.
Qed.

(** *** [populateCluster] *)

(** The three ways through [populateCluster]. *)
Lemma populateCluster_unfold (cluster : Cluster) (s : State) :
  populateCluster (cluster, s) =
    match client (Name cluster) s with
    | (Ok cl, s1) =>
        match Nodes_List cl with
        | inl nodes =>
            (Ok tt, (withCreationTimestamp (minNodeTime nodes) cluster, s1))
        | inr e => (Err e, (cluster, s1))
        end
    | (Err e, s1) => (Err e, (cluster, s1))
    | (Panic msg, s1) => (Panic msg, (cluster, s1))
    end.
Proof.
  unfold populateCluster, bind, gets, zoom. cbn -[client].
  destruct (client (Name cluster) s) as [[cl|e|msg] s1]; cbn; try done.
  by destruct (Nodes_List cl).
Qed.

Lemma client_no_panic (name : string) (s : State) (msg : string) :
  (client name s).1 ≠ Panic msg.
Proof.
  destruct (clients (ctl s) !! name) as [cl|] eqn:Hc.
  - rewrite (client_hit _ _ _ Hc). cbn. discriminate.
  - rewrite (client_miss _ _ Hc).
    destruct (ClientConfig _ name) as [restConfig|e]; [|cbn; discriminate].
    destruct (NewForConfig restConfig); cbn; discriminate.
Qed.

Lemma populateCluster_state (cluster : Cluster) (s : State) :
  (populateCluster (cluster, s)).2.2 = (client (Name cluster) s).2.
Proof.
  rewrite populateCluster_unfold.
  destruct (client (Name cluster) s) as [[cl|e|msg] s1]; cbn; try done.
  by destruct (Nodes_List cl).
Qed.

(** The client a name resolves to depends on the configuration and on the
    cache entry of that name alone. *)
Lemma client_result_local (name : string) (s s0 : State) :
  config (ctl s) = config (ctl s0) →
  clients (ctl s) !! name = clients (ctl s0) !! name →
  (client name s).1 = (client name s0).1.
Proof.
  intros Hcfg Hcl.
  destruct (clients (ctl s0) !! name) as [cl|] eqn:Hc.
  - by rewrite (client_hit _ _ _ Hc), (client_hit _ _ _ Hcl).
  - rewrite (client_miss _ _ Hc), (client_miss _ _ Hcl), Hcfg.
    destruct (ClientConfig _ name) as [restConfig|e]; [|done].
    by destruct (NewForConfig restConfig).
Qed.

Lemma populateCluster_local (cluster : Cluster) (s s0 : State) :
  config (ctl s) = config (ctl s0) →
  clients (ctl s) !! Name cluster = clients (ctl s0) !! Name cluster →
  (populateCluster (cluster, s)).1 = (populateCluster (cluster, s0)).1
  ∧ (populateCluster (cluster, s)).2.1 = (populateCluster (cluster, s0)).2.1.
Proof.
  intros Hcfg Hcl. rewrite !populateCluster_unfold.
  pose proof (client_result_local _ _ _ Hcfg Hcl) as Hres.
  destruct (client (Name cluster) s) as [r s1],
           (client (Name cluster) s0) as [r0 s2].
  cbn in Hres. subst r0.
  destruct r as [cl|e|msg]; cbn; try done.
  by destruct (Nodes_List cl).
Qed.

(** [m] is the least of the instants [ts]. *)
Definition minimumOf (ts : list Time.Time) (m : Time.Time) : Prop :=
  m ∈ ts ∧ ∀ t, t ∈ ts → (m ≤ t)%Z.

Lemma minTimeStep_nonzero (minTime : Time.Time) (node : Node) :
  Time.IsZero minTime = false →
  minTimeStep minTime node = Z.min minTime (Node_CreationTimestamp node).
Proof.
  unfold minTimeStep, Time.Before. intros ->. cbn.
  destruct (Z.ltb_spec (Node_CreationTimestamp node) minTime); lia.
Qed.

(** Once the running minimum is a real instant, and no node carries the zero
    instant, the loop keeps the least instant seen. *)
Lemma fold_minTimeStep_nonzero (nodes : list Node) (acc : Time.Time) :
  Time.IsZero acc = false →
  Forall (λ node, Time.IsZero (Node_CreationTimestamp node) = false) nodes →
  minimumOf (acc :: (Node_CreationTimestamp <$> nodes))
            (fold_left minTimeStep nodes acc).
Proof.
  revert acc. induction nodes as [|node nodes IH]; intros acc Hacc Hall.
  - cbn. split; [by left|]. intros t Ht. apply list_elem_of_singleton in Ht. lia.
  - apply Forall_cons in Hall as [Hnode Hall]. cbn [fold_left fmap list_fmap].
    rewrite (minTimeStep_nonzero _ _ Hacc).
    assert (Time.IsZero (Z.min acc (Node_CreationTimestamp node)) = false) as Hmin.
    { unfold Time.IsZero in *. apply Z.eqb_neq. apply Z.eqb_neq in Hacc, Hnode. lia. }
    destruct (IH _ Hmin Hall) as [Hin Hle]. split.
    + apply elem_of_cons in Hin as [Heq|Hin].
      * rewrite Heq. destruct (Z.min_spec acc (Node_CreationTimestamp node))
          as [[_ ->]|[_ ->]]; [by left|right; by left].
      * right; by right.
    + intros t Ht.
      assert (fold_left minTimeStep nodes (Z.min acc (Node_CreationTimestamp node))
              ≤ Z.min acc (Node_CreationTimestamp node))%Z as Hlow
        by (apply Hle; by left).
      apply elem_of_cons in Ht as [->|Ht]; [lia|].
      apply elem_of_cons in Ht as [->|Ht]; [lia|].
      apply Hle. by right.
Qed.

Lemma minNodeTime_nonzero (nodes : list Node) :
  nodes ≠ [] →
  Forall (λ node, Time.IsZero (Node_CreationTimestamp node) = false) nodes →
  minimumOf (Node_CreationTimestamp <$> nodes) (minNodeTime nodes).
Proof.
  destruct nodes as [|node nodes]; [done|]. intros _ Hall.
  apply Forall_cons in Hall as [Hnode Hall].
  unfold minNodeTime. cbn [fold_left]. unfold minTimeStep at 2. cbn.
  by apply fold_minTimeStep_nonzero.
Qed.

Lemma minNodeTime_nil : minNodeTime [] = Time.zero.
Proof. reflexivity. Qed.

(** *** [List] *)

(** The outcome of the status query for a name: the client lookup followed
    by the node query. *)
Definition nodesOf (s : State) (name : string) : result (list Node) :=
  (bind (client name) (λ cl, call (Nodes_List cl)) s).1.

(** The entry [List] returns for a recorded context, computed on its own. *)
Definition entryOf (s : State) (e : string * Context) : Cluster :=
  (populateCluster (newCluster e.1 e.2, s)).2.1.

Lemma populateCluster_no_panic (cluster : Cluster) (s : State) (msg : string) :
  (populateCluster (cluster, s)).1 ≠ Panic msg.
Proof.
  rewrite populateCluster_unfold.
  pose proof (client_no_panic (Name cluster) s) as Hnp.
  destruct (client (Name cluster) s) as [[cl|e|msg'] s1]; cbn in *.
  - destruct (Nodes_List cl); cbn; discriminate.
  - discriminate.
  - by destruct (Hnp msg').
Qed.

Lemma entryOf_status (s : State) (e : string * Context) :
  Name (entryOf s e) = e.1
  ∧ Product (entryOf s e) = productFromContext e.2
  ∧ match nodesOf s e.1 with
    | Ok nodes =>
        Status (entryOf s e) = mkClusterStatus (minNodeTime nodes) false None
    | _ => Status (entryOf s e) = zeroStatus
    end.
Proof.
  unfold entryOf, nodesOf, bind. rewrite populateCluster_unfold.
  cbn [Name newCluster].
  destruct (client e.1 s) as [[cl|err|msg] s1]; cbn; try done.
  destruct (Nodes_List cl); cbn; done.
Qed.

Lemma List_range_entries (s0 : State) (entries : list (string * Context)) :
  ∀ (result : list Cluster) (s : State),
    NoDup entries.*1 →
    config (ctl s) = config (ctl s0) →
    (∀ n, n ∈ entries.*1 → clients (ctl s) !! n = clients (ctl s0) !! n) →
    ∃ s', List_range entries result s = (Ok (result ++ (entryOf s0 <$> entries)), s')
          ∧ config (ctl s') = config (ctl s0).
Proof.
  induction entries as [|[name ct] entries IH]; intros result s Hnd Hcfg Hcl.
  - exists s. cbn. by rewrite app_nil_r.
  - cbn in Hnd. apply NoDup_cons in Hnd as [Hfresh Hnd].
    assert (clients (ctl s) !! Name (newCluster name ct)
            = clients (ctl s0) !! Name (newCluster name ct)) as Hname
      by (apply Hcl; cbn; by left).
    destruct (populateCluster_local (newCluster name ct) s s0 Hcfg Hname)
      as [Hres Hentry].
    pose proof (populateCluster_state (newCluster name ct) s) as Hstate.
    pose proof (populateCluster_no_panic (newCluster name ct) s) as Hnp.
    cbn [List_range fmap list_fmap].
    change (entryOf s0 (name, ct))
      with (populateCluster (newCluster name ct, s0)).2.1.
    rewrite <- Hentry. clear Hres Hentry.
    destruct (populateCluster (newCluster name ct, s)) as [r [cluster s1]].
    cbn [fst snd Name newCluster] in Hstate, Hnp. cbn [fst snd].
    assert (config (ctl s1) = config (ctl s0)) as Hcfg1
      by (rewrite Hstate, client_config; done).
    assert (∀ n, n ∈ entries.*1 → clients (ctl s1) !! n = clients (ctl s0) !! n)
      as Hcl1.
    { intros n Hn. rewrite Hstate, client_other.
      - apply Hcl. cbn. by right.
      - cbn. intros ->. done. }
    destruct r as [[]|err|msg].
    + destruct (IH (result ++ [cluster]) s1 Hnd Hcfg1 Hcl1) as (s' & Hs' & Hc').
      exists s'. rewrite Hs'. by rewrite <- app_assoc.
    + unfold bind, emit, modify.
      destruct (IH (result ++ [cluster])
                   (mkState (ctl s1) (trace s1 ++ [EvKlog (warning name err)]))
                   Hnd Hcfg1 Hcl1) as (s' & Hs' & Hc').
      exists s'. rewrite Hs'. by rewrite <- app_assoc.
    + by destruct (Hnp msg).
Qed.

Lemma List_entries (s : State) (entries : list (string * Context)) :
  range_of (Contexts (config (ctl s))) entries →
  ∃ s', List entries s = (Ok (entryOf s <$> entries), s')
        ∧ config (ctl s') = config (ctl s).
Proof.
  unfold range_of. intros Hperm.
  assert (NoDup entries.*1) as Hnd.
  { rewrite Hperm. apply NoDup_fst_map_to_list. }
  exact (List_range_entries s entries [] s Hnd eq_refl (λ _ _, eq_refl)).
Qed.

(** C1.  Whatever order [range] visits the recorded contexts in, [List]
    returns a nil error and one cluster per recorded context, named after it
    and with its product.  An entry whose status query fails (the client
    lookup or the node query returns an error) is in the result all the same,
    with the zero status; every other entry carries the status its own node
    list gives, whether or not the queries of other contexts failed. *)
Theorem List_isolates_failures (s : State) (entries : list (string * Context)) :
  range_of (Contexts (config (ctl s))) entries →
  ∃ (clusters : list Cluster) (s' : State),
    List entries s = (Ok clusters, s')
    ∧ length clusters = size (Contexts (config (ctl s)))
    ∧ Forall2 (λ e cluster,
        Name cluster = e.1
        ∧ Product cluster = productFromContext e.2
        ∧ match nodesOf s e.1 with
          | Ok nodes =>
              Status cluster = mkClusterStatus (minNodeTime nodes) false None
          | _ => Status cluster = zeroStatus
          end) entries clusters.
Proof.
  unfold range_of. intros Hperm.
  assert (NoDup entries.*1) as Hnd.
  { rewrite Hperm. apply NoDup_fst_map_to_list. }
  destruct (List_range_entries s entries [] s Hnd eq_refl (λ _ _, eq_refl))
    as (s' & Hs' & _).
  exists (entryOf s <$> entries), s'. split; [exact Hs'|]. split.
  - rewrite length_fmap, Hperm. apply length_map_to_list.
  - apply Forall2_fmap_r, Forall_Forall2_diag, Forall_forall.
    intros e _. apply entryOf_status.
Qed.

(** *** The creation timestamp *)

(** C7, as the code has it.  When the node query returns a non-empty list
    none of whose nodes carries the zero instant, [populateCluster] sets
    [Status.CreationTimestamp] to the least creation timestamp of the nodes
    and touches nothing else; when the client lookup or the node query fails
    it returns that error and leaves the cluster as it was. *)
Theorem populateCluster_min_timestamp (cluster : Cluster) (s : State) :
  (∀ cl nodes,
     (client (Name cluster) s).1 = Ok cl →
     Nodes_List cl = inl nodes →
     nodes ≠ [] →
     Forall (λ node, Time.IsZero (Node_CreationTimestamp node) = false) nodes →
     (populateCluster (cluster, s)).1 = Ok tt
     ∧ (populateCluster (cluster, s)).2.1
       = withCreationTimestamp (minNodeTime nodes) cluster
     ∧ minimumOf (Node_CreationTimestamp <$> nodes)
         (CreationTimestamp (Status (populateCluster (cluster, s)).2.1)))
  ∧ (∀ e,
       (client (Name cluster) s).1 = Err e →
       (populateCluster (cluster, s)).1 = Err e
       ∧ (populateCluster (cluster, s)).2.1 = cluster)
  ∧ (∀ cl e,
       (client (Name cluster) s).1 = Ok cl →
       Nodes_List cl = inr e →
       (populateCluster (cluster, s)).1 = Err e
       ∧ (populateCluster (cluster, s)).2.1 = cluster).
Proof.
  rewrite populateCluster_unfold.
  destruct (client (Name cluster) s) as [[cl0|e0|msg] s1]; cbn;
    (split; [|split]); try done.
  - intros cl nodes [= <-] Hnodes Hne Hall. rewrite Hnodes. cbn.
    split; [done|]. split; [done|]. by apply minNodeTime_nonzero.
  - intros cl e [= <-] Hnodes. by rewrite Hnodes.
  - intros e [= <-]. done.
Qed.

End Controller.

Arguments mkController {Client} config clients.
Arguments config {Client} c.
Arguments clients {Client} c.
Arguments mkState {Client} ctl trace.
Arguments ctl {Client} s.
Arguments trace {Client} s.
Arguments client {RestConfig Client} ClientConfig NewForConfig name s.
Arguments populateCluster {RestConfig Client} ClientConfig NewForConfig Nodes_List cs.
Arguments List_range {RestConfig Client} ClientConfig NewForConfig Nodes_List
  productFromContext entries result s.
Arguments List {RestConfig Client} ClientConfig NewForConfig Nodes_List
  productFromContext entries s.
Arguments nodesOf {RestConfig Client} ClientConfig NewForConfig Nodes_List s name.
Arguments entryOf {RestConfig Client} ClientConfig NewForConfig Nodes_List
  productFromContext s e.

(** ** [pkg/cmd/get.go]: what [ctlptl get] prints *)

Record TableColumnDefinition := mkColumn {
  Column_Name : string;
  Column_Type : string
}.

(** The cells of the rows built here are all strings. *)
Record TableRow := mkRow {
  Cells : list string
}.

Record Table := mkTable {
  Table_TypeMeta : TypeMeta;
  ColumnDefinitions : list TableColumnDefinition;
  Rows : list TableRow
}.

(** The [runtime.Object]s that reach [Print]: the pointers the controllers
    return (never nil there), tables, and objects of any other kind. *)
Inductive Object :=
  | ObjRegistry (r : RegistryT)
  | ObjRegistryList (items : list RegistryT)
  | ObjCluster (r : Cluster)
  | ObjClusterList (items : list Cluster)
  | ObjTable (t : Table)
  | ObjOther (typeMeta : TypeMeta) (body : string).

(** [genericclioptions.PrintFlags]: [OutputFlagSpecified] is a function
    field, nil until the flags are bound; [Some b] is a function returning
    [b]. *)
Record PrintFlags := mkPrintFlags {
  PrintFlags_OutputFlagSpecified : option bool
}.

Record GetOptions := mkGetOptions {
  GetOptions_PrintFlags : PrintFlags;
  StartTime : Time.Time;
  IgnoreNotFound : bool;
  FieldSelector : string
}.

Definition OutputFlagSpecified (o : GetOptions) : bool :=
  match PrintFlags_OutputFlagSpecified (GetOptions_PrintFlags o) with
  | Some specified => specified
  | None => false
  end.

Section Get.
(** [duration.ShortHumanDuration] of apimachinery, on a count of nanoseconds. *)
Variable ShortHumanDuration : Z → string.

Definition clusterColumns : list TableColumnDefinition :=
  [ mkColumn "Current" "string";
    mkColumn "Name" "string";
    mkColumn "Product" "string";
    mkColumn "Age" "string";
    mkColumn "Registry" "string" ].

(** The body of the loop of [clustersAsTable]: the row of one cluster. *)
Definition clusterRow (o : GetOptions) (cluster : Cluster) : TableRow :=
  let age :=
    let cTime := CreationTimestamp (Status cluster) in
    if negb (Time.IsZero cTime)
    then ShortHumanDuration (Time.Sub (StartTime o) cTime)
    else "unknown" in
  let rHost :=
    match LocalRegistryHosting (Status cluster) with
    | Some hosting => Host hosting
    | None => EmptyString
    end in
  let rHost := if String.eqb rHost EmptyString then "none" else rHost in
  let current := if Current (Status cluster) then "*" else EmptyString in
  mkRow [current; Name cluster; Product cluster; age; rHost].

Definition clustersAsTable (o : GetOptions) (clusters : list Cluster) : Table :=
  fold_left
    (λ table cluster,
       mkTable (Table_TypeMeta table) (ColumnDefinitions table)
               (Rows table ++ [clusterRow o cluster]))
    clusters
    (mkTable (mkTypeMeta "metav1.k8s.io" "Table") clusterColumns []).

Definition registryColumns : list TableColumnDefinition :=
  [ mkColumn "Name" "string";
    mkColumn "Host Address" "int";
    mkColumn "Container Address" "string";
    mkColumn "Age" "string" ].

Definition registryRow (o : GetOptions) (registry : RegistryT) : TableRow :=
  let status := Registry_Status registry in
  let age :=
    let cTime := Registry_CreationTimestamp status in
    if negb (Time.IsZero cTime)
    then ShortHumanDuration (Time.Sub (StartTime o) cTime)
    else "unknown" in
  let hostAddress :=
    if negb (HostPort status =? 0)%Z
    then "localhost:" +:+ pretty (HostPort status)
    else "none" in
  let containerAddress :=
    if negb (ContainerPort status =? 0)%Z
       && negb (String.eqb (IPAddress status) EmptyString)
    then IPAddress status +:+ ":" +:+ pretty (ContainerPort status)
    else "none" in
  mkRow [Registry_Name registry; hostAddress; containerAddress; age].

Definition registriesAsTable (o : GetOptions) (registries : list RegistryT) : Table :=
  fold_left
    (λ table registry,
       mkTable (Table_TypeMeta table) (ColumnDefinitions table)
               (Rows table ++ [registryRow o registry]))
    registries
    (mkTable (mkTypeMeta "metav1.k8s.io" "Table") registryColumns []).

Definition transformForOutput (o : GetOptions) (obj : Object) : Object :=
  if OutputFlagSpecified o then obj
  else
    match obj with
    | ObjRegistry r => ObjTable (registriesAsTable o [r])
    | ObjRegistryList items => ObjTable (registriesAsTable o items)
    | ObjCluster r => ObjTable (clustersAsTable o [r])
    | ObjClusterList items => ObjTable (clustersAsTable o items)
    | _ => obj
    end.

(** The two loops append one row per item to a table whose header is
    fixed. *)
Lemma fold_rows {A} (row : A → TableRow) (items : list A)
    (tm : TypeMeta) (cols : list TableColumnDefinition) (rows : list TableRow) :
  fold_left
    (λ table x,
       mkTable (Table_TypeMeta table) (ColumnDefinitions table)
               (Rows table ++ [row x]))
    items (mkTable tm cols rows)
  = mkTable tm cols (rows ++ (row <$> items)).
Proof.
  revert rows. induction items as [|x items IH]; intros rows; cbn.
  - by rewrite app_nil_r.
  - rewrite IH. by rewrite <- app_assoc.
Qed.

Lemma clustersAsTable_rows (o : GetOptions) (clusters : list Cluster) :
  clustersAsTable o clusters =
    mkTable (mkTypeMeta "metav1.k8s.io" "Table") clusterColumns
            (clusterRow o <$> clusters).
Proof. unfold clustersAsTable. by rewrite fold_rows. Qed.

Lemma registriesAsTable_rows (o : GetOptions) (registries : list RegistryT) :
  registriesAsTable o registries =
    mkTable (mkTypeMeta "metav1.k8s.io" "Table") registryColumns
            (registryRow o <$> registries).
Proof. unfold registriesAsTable. by rewrite fold_rows. Qed.

(** The age cell of a cluster that has no creation timestamp. *)
Lemma clusterRow_zero_age (o : GetOptions) (cluster : Cluster) :
  Time.IsZero (CreationTimestamp (Status cluster)) = true →
  Cells (clusterRow o cluster) !! 3 = Some "unknown".
Proof. intros Hzero. unfold clusterRow. cbn. by rewrite Hzero. Qed.

(** C10, as the code has it.  With an output flag [transformForOutput]
    returns its argument.  Without one, a cluster or a cluster list becomes
    a table with the columns Current, Name, Product, Age, Registry and one
    row per cluster, in order; a registry or a registry list becomes a table
    with the columns Name, Host Address, Container Address, Age and one row
    per registry; an object of any other type is returned as it is. *)
Theorem transformForOutput_cases (o : GetOptions) (obj : Object) :
  (OutputFlagSpecified o = true → transformForOutput o obj = obj)
  ∧ (OutputFlagSpecified o = false →
     match obj with
     | ObjCluster r =>
         ∃ t, transformForOutput o obj = ObjTable t
              ∧ Column_Name <$> ColumnDefinitions t
                = ["Current"; "Name"; "Product"; "Age"; "Registry"]
              ∧ Rows t = [clusterRow o r]
     | ObjClusterList items =>
         ∃ t, transformForOutput o obj = ObjTable t
              ∧ Column_Name <$> ColumnDefinitions t
                = ["Current"; "Name"; "Product"; "Age"; "Registry"]
              ∧ Rows t = (clusterRow o <$> items)
              ∧ length (Rows t) = length items
     | ObjRegistry r =>
         ∃ t, transformForOutput o obj = ObjTable t
              ∧ Column_Name <$> ColumnDefinitions t
                = ["Name"; "Host Address"; "Container Address"; "Age"]
              ∧ Rows t = [registryRow o r]
     | ObjRegistryList items =>
         ∃ t, transformForOutput o obj = ObjTable t
              ∧ Column_Name <$> ColumnDefinitions t
                = ["Name"; "Host Address"; "Container Address"; "Age"]
              ∧ Rows t = (registryRow o <$> items)
              ∧ length (Rows t) = length items
     | ObjTable _ | ObjOther _ _ => transformForOutput o obj = obj
     end).
Proof.
  unfold transformForOutput. split; intros ->; [done|].
  destruct obj as [r|items|r|items|t|tm body]; try done.
  - eexists. split; [done|]. by rewrite registriesAsTable_rows.
  - eexists. split; [done|]. rewrite registriesAsTable_rows. cbn.
    by rewrite length_fmap.
  - eexists. split; [done|]. by rewrite clustersAsTable_rows.
  - eexists. split; [done|]. rewrite clustersAsTable_rows. cbn.
    by rewrite length_fmap.
Qed.

End Get.

(** ** [pkg/cluster/cluster_test.go]: the test doubles *)

(** The values a [map[string]interface{}] of settings holds. *)
Inductive Value :=
  | VInt (n : Z)
  | VBool (b : bool)
  | VString (s : string).

(** A Go map: nil, or allocated.  Reading a nil map finds nothing; writing
    to it panics. *)
Inductive GoMap :=
  | NilMap
  | MapOf (entries : gmap string Value).

Definition mapGet (m : GoMap) (key : string) : option Value :=
  match m with
  | NilMap => None
  | MapOf entries => entries !! key
  end.

(** [settings[key] = v], on the map the caller shares. *)
Definition mapStore (key : string) (v : Value) : M GoMap unit :=
  fun m =>
    match m with
    | NilMap => (Panic "assignment to entry in nil map", m)
    | MapOf entries => (Ok tt, MapOf (<[key := v]> entries))
    end.

(** [fakeD4MClient.setK8sEnabled]: the state is the settings map the caller
    passed.  [enabled.(bool)] panics on a value of another type. *)
Definition setK8sEnabled (desired : bool) : M GoMap bool :=
  let* entry := gets (λ settings, mapGet settings "k8sEnabled") in
  let* already :=
    match entry with
    | Some (VBool enabled) => ret (Bool.eqb enabled true)
    | Some _ => panic "interface conversion: interface {} is not bool"
    | None => ret false
    end in
  if already then ret false
  else mapStore "k8sEnabled" (VBool true) ;; ret true.

(** [fakeD4MClient.ensureMinCPU]. *)
Definition ensureMinCPU (desired : Z) : M GoMap bool :=
  let* entry := gets (λ settings, mapGet settings "cpu") in
  let* enough :=
    match entry with
    | Some (VInt cpu) => ret (desired <=? cpu)%Z
    | Some _ => panic "interface conversion: interface {} is not int"
    | None => ret false
    end in
  if enough then ret false
  else mapStore "cpu" (VInt desired) ;; ret true.

Record fakeDockerClient := mkFakeDocker {
  docker_started : bool;
  ncpu : Z
}.

Definition ServerVersion : M fakeDockerClient unit :=
  let* started := gets docker_started in
  if negb started then fail (Errorf "not started") else ret tt.

(** [Info], reduced to the [NCPU] field the callers read. *)
Definition Info : M fakeDockerClient Z :=
  let* started := gets docker_started in
  if negb started then fail (Errorf "not started") else gets ncpu.

Record fakeD4MClient := mkFakeD4M {
  lastSettings : GoMap;
  d4m_started : bool;
  settingsWriteCount : Z;
  resetCount : Z
}.

(** The methods of [fakeD4MClient] that reach the docker client run on both:
    the client's [docker] field points to the fixture's one docker client. *)
Definition writeSettings (settings : GoMap) : M (fakeD4MClient * fakeDockerClient) unit :=
  modify (λ '(c, docker),
    (mkFakeD4M settings (d4m_started c) (settingsWriteCount c) (resetCount c),
     docker)) ;;
  let* cpu :=
    match mapGet settings "cpu" with
    | Some (VInt n) => ret n
    | _ => panic "interface conversion: interface {} is not int"
    end in
  modify (λ '(c, docker),
    (mkFakeD4M (lastSettings c) (d4m_started c) (settingsWriteCount c + 1)
               (resetCount c),
     mkFakeDocker (docker_started docker) cpu)).

Definition settings : M (fakeD4MClient * fakeDockerClient) GoMap :=
  gets (λ '(c, _), lastSettings c).

Definition resetK8s : M (fakeD4MClient * fakeDockerClient) unit :=
  modify (λ '(c, docker),
    (mkFakeD4M (lastSettings c) (d4m_started c) (settingsWriteCount c)
               (resetCount c + 1),
     docker)).

Definition start : M (fakeD4MClient * fakeDockerClient) unit :=
  modify (λ '(c, docker),
    (mkFakeD4M (MapOf {[ "cpu" := VInt (ncpu docker) ]}) true
               (settingsWriteCount c) (resetCount c),
     mkFakeDocker true (ncpu docker))).

(** *** The settings reconcilers *)

(** C4.  On a settings map whose [k8sEnabled] entry is [true],
    [setK8sEnabled] returns false and leaves the map as it is; on one where
    the entry is missing or [false] it stores [true] and returns true, and a
    second call on the map it leaves returns false and changes nothing. *)
Theorem setK8sEnabled_idempotent (entries : gmap string Value) (desired : bool) :
  (entries !! "k8sEnabled" = Some (VBool true) →
     setK8sEnabled desired (MapOf entries) = (Ok false, MapOf entries))
  ∧ (entries !! "k8sEnabled" = None ∨ entries !! "k8sEnabled" = Some (VBool false) →
     let written := MapOf (<["k8sEnabled" := VBool true]> entries) in
     setK8sEnabled desired (MapOf entries) = (Ok true, written)
     ∧ ∀ desired', setK8sEnabled desired' written = (Ok false, written)).
Proof.
  unfold setK8sEnabled, bind, gets, mapStore. cbn. split.
  - by intros ->.
  - intros Hentry. rewrite lookup_insert_eq. cbn.
    by destruct Hentry as [-> | ->].
Qed.

(** C3.  On a settings map whose [cpu] entry is an int at or above the
    desired count, [ensureMinCPU] returns false and leaves the map as it is;
    when the entry is below the desired count, or missing, it stores exactly
    the desired count and returns true.  The [cpu] entry is never lowered. *)
Theorem ensureMinCPU_monotonic (entries : gmap string Value) (desired : Z) :
  (∀ cpu, entries !! "cpu" = Some (VInt cpu) → (desired ≤ cpu)%Z →
     ensureMinCPU desired (MapOf entries) = (Ok false, MapOf entries))
  ∧ (entries !! "cpu" = None
     ∨ (∃ cpu, entries !! "cpu" = Some (VInt cpu) ∧ (cpu < desired)%Z) →
     ensureMinCPU desired (MapOf entries)
     = (Ok true, MapOf (<["cpu" := VInt desired]> entries)))
  ∧ (∀ cpu, entries !! "cpu" = Some (VInt cpu) →
     ∃ changed cpu',
       ensureMinCPU desired (MapOf entries) = (Ok changed, MapOf (<["cpu" := VInt cpu']> entries))
       ∧ (cpu ≤ cpu')%Z
       ∧ (changed = false → cpu' = cpu)).
Proof.
  unfold ensureMinCPU, bind, gets, mapStore. cbn. split; [|split].
  - intros cpu -> Hle. cbn. by rewrite (proj2 (Z.leb_le _ _) Hle).
  - intros [-> | (cpu & -> & Hlt)]; cbn; [done|].
    by rewrite (proj2 (Z.leb_gt _ _) Hlt).
  - intros cpu Hcpu. rewrite Hcpu. cbn.
    destruct (Z.leb_spec desired cpu) as [Hle|Hlt]; cbn.
    + exists false, cpu. rewrite insert_id by done. split; [done|]. split; [lia|done].
    + exists true, desired. split; [done|]. split; [lia|done].
Qed.

(** ** [List] with options, and [Get]

    The tests and [get.go] call [List(ctx, ListOptions)] and [Get(ctx, name)]
    of a later controller; [cluster.go] has the option-less [List] above. *)

(** A parsed field selector of apimachinery's [fields] package: a
    conjunction of requirements [field = value], [field == value] or
    [field != value]. *)
Inductive Operator :=
  | Equals
  | DoubleEquals
  | NotEquals.

Record Requirement := mkRequirement {
  Field : string;
  Op : Operator;
  Val : string
}.

(** [fields.Set.Get]: a field the set lacks reads as the empty string. *)
Definition fieldOf (fields : gmap string string) (field : string) : string :=
  default EmptyString (fields !! field).

Definition requirementMatches (fields : gmap string string) (r : Requirement) : bool :=
  match Op r with
  | Equals | DoubleEquals => String.eqb (fieldOf fields (Field r)) (Val r)
  | NotEquals => negb (String.eqb (fieldOf fields (Field r)) (Val r))
  end.

Definition Matches (selector : list Requirement) (fields : gmap string string) : bool :=
  forallb (requirementMatches fields) selector.

(** Modelled from the spec: the projection of a cluster onto the fields a
    selector may name, which the spec gives as [product] and [name]; the
    function that builds it is not in [cluster.go]. *)
Definition clusterFields (cluster : Cluster) : gmap string string :=
  {[ "name" := Name cluster; "product" := Product cluster ]}.

Record ListOptions := mkListOptions {
  ListOptions_FieldSelector : string
}.

(** [errors.NewNotFound] for the cluster resource; the message is the
    resource and the name. *)
Definition NewNotFound (name : string) : error :=
  StatusError StatusReasonNotFound ("clusters " +:+ name +:+ " not found").

Section Selection.
Variables RestConfig Client : Type.
Variable ClientConfig : Config → string → RestConfig + error.
Variable NewForConfig : RestConfig → Client + error.
Variable Nodes_List : Client → list Node + error.
Variable productFromContext : Context → string.
(** [fields.ParseSelector] of apimachinery. *)
Variable ParseSelector : string → list Requirement + error.
(** The order in which [range] visits a map of contexts. *)
Variable rangeOrder : gmap string Context → list (string * Context).
Hypothesis rangeOrder_range : ∀ m, range_of m (rangeOrder m).

(** Modelled from the spec: the filtered listing behind [List(ctx, options)]
    and [Get], absent from [cluster.go]: every recorded context is listed as
    the option-less [List] does, and the entries the selector matches are
    kept. *)
Definition ListSelected (selector : list Requirement) : M (State Client) (list Cluster) :=
  let* contexts := gets (λ s, Contexts (config (ctl s))) in
  let* all :=
    List ClientConfig NewForConfig Nodes_List productFromContext
         (rangeOrder contexts) in
  ret (filter (λ cluster, Matches selector (clusterFields cluster) = true) all).

(** Modelled from the spec: [Controller.List(ctx, options)] with the field
    selector of the options, absent from [cluster.go]; a selector that does
    not parse is the parser's error. *)
Definition ListWith (options : ListOptions) : M (State Client) (list Cluster) :=
  let* selector := call (ParseSelector (ListOptions_FieldSelector options)) in
  ListSelected selector.

(** Modelled from the spec: [Controller.Get], absent from [cluster.go]: a
    listing filtered to the one name, NotFound when it is empty. *)
Definition Get (name : string) : M (State Client) Cluster :=
  let* found := ListSelected [mkRequirement "name" Equals name] in
  match found with
  | cluster :: _ => ret cluster
  | [] => fail (NewNotFound name)
  end.

Local Abbreviation listAll s :=
  (List ClientConfig NewForConfig Nodes_List productFromContext
        (rangeOrder (Contexts (config (ctl s)))) s).
Local Abbreviation entry s :=
  (entryOf ClientConfig NewForConfig Nodes_List productFromContext s).

Lemma fieldOf_name (cluster : Cluster) :
  fieldOf (clusterFields cluster) "name" = Name cluster.
Proof. unfold fieldOf, clusterFields. by rewrite lookup_insert_eq. Qed.

Lemma fieldOf_product (cluster : Cluster) :
  fieldOf (clusterFields cluster) "product" = Product cluster.
Proof.
  unfold fieldOf, clusterFields.
  rewrite lookup_insert_ne by done. by rewrite lookup_singleton_eq.
Qed.

Lemma Matches_name (name : string) (cluster : Cluster) :
  Matches [mkRequirement "name" Equals name] (clusterFields cluster) = true
  ↔ Name cluster = name.
Proof.
  unfold Matches, requirementMatches. cbn. rewrite fieldOf_name, andb_true_r.
  apply String.eqb_eq.
Qed.

Lemma Matches_product (X : string) (cluster : Cluster) :
  Matches [mkRequirement "product" Equals X] (clusterFields cluster) = true
  ↔ Product cluster = X.
Proof.
  unfold Matches, requirementMatches. cbn. rewrite fieldOf_product, andb_true_r.
  apply String.eqb_eq.
Qed.

Lemma listAll_entries (s : State Client) :
  ∃ s', listAll s = (Ok (entry s <$> rangeOrder (Contexts (config (ctl s)))), s')
        ∧ config (ctl s') = config (ctl s).
Proof. apply List_entries, rangeOrder_range. Qed.

Lemma ListSelected_entries (selector : list Requirement) (s : State Client) :
  ∃ s',
    ListSelected selector s
    = (Ok (filter (λ cluster, Matches selector (clusterFields cluster) = true)
                  (entry s <$> rangeOrder (Contexts (config (ctl s))))), s')
    ∧ config (ctl s') = config (ctl s).
Proof.
  destruct (listAll_entries s) as (s' & Hall & Hcfg).
  exists s'. unfold ListSelected, bind, gets. cbn [fst snd].
  by rewrite Hall.
Qed.

Lemma filter_by_name_absent (entries : list (string * Context)) (name : string) :
  name ∉ entries.*1 → filter (λ e, e.1 = name) entries = [].
Proof.
  induction entries as [|[n c] entries IH]; intros Hnotin; [done|].
  cbn in Hnotin. apply not_elem_of_cons in Hnotin as [Hne Hnotin].
  rewrite filter_cons_False by (cbn; congruence). by apply IH.
Qed.

(** Among entries with distinct names, the ones of a given name are the one
    entry recorded under it. *)
Lemma filter_by_name (entries : list (string * Context)) (name : string) (ct : Context) :
  NoDup entries.*1 → (name, ct) ∈ entries →
  filter (λ e, e.1 = name) entries = [(name, ct)].
Proof.
  induction entries as [|[n c] entries IH]; intros Hnd Hin.
  - by apply elem_of_nil in Hin.
  - cbn in Hnd. apply NoDup_cons in Hnd as [Hfresh Hnd].
    destruct (decide (n = name)) as [->|Hne].
    + rewrite filter_cons_True by done.
      rewrite (filter_by_name_absent entries name Hfresh).
      apply elem_of_cons in Hin as [[= <-]|Hin]; [done|].
      destruct Hfresh. apply list_elem_of_fmap. by exists (name, ct).
    + rewrite filter_cons_False by done.
      apply elem_of_cons in Hin as [[= -> _]|Hin]; [done|]. by apply IH.
Qed.

Lemma filter_fmap_list {A B} (f : A → B) (P : B → Prop) `{!∀ y, Decision (P y)}
    (l : list A) :
  filter P (f <$> l) = f <$> filter (λ x, P (f x)) l.
Proof.
  induction l as [|x l IH]; [done|]. cbn [fmap list_fmap].
  rewrite !filter_cons. destruct (decide (P (f x))); cbn; by rewrite IH.
Qed.

Lemma entry_Name (s : State Client) (e : string * Context) :
  Name (entry s e) = e.1.
Proof. apply entryOf_status. Qed.

Lemma Get_recorded (s : State Client) (name : string) (ct : Context) :
  Contexts (config (ctl s)) !! name = Some ct →
  ∃ s', Get name s = (Ok (entry s (name, ct)), s')
        ∧ config (ctl s') = config (ctl s).
Proof.
  intros Hct. destruct (ListSelected_entries [mkRequirement "name" Equals name] s)
    as (s' & Hsel & Hcfg).
  exists s'. split; [|done]. unfold Get, bind. rewrite Hsel.
  rewrite filter_fmap_list.
  rewrite (list_filter_iff _ (λ e, e.1 = name)).
  2:{ intros e. by rewrite Matches_name, entry_Name. }
  rewrite (filter_by_name _ name ct); [done| |].
  - rewrite (rangeOrder_range _). apply NoDup_fst_map_to_list.
  - rewrite (rangeOrder_range _). by apply elem_of_map_to_list.
Qed.

Lemma Get_missing (s : State Client) (name : string) :
  Contexts (config (ctl s)) !! name = None →
  ∃ s', Get name s = (Err (NewNotFound name), s')
        ∧ config (ctl s') = config (ctl s).
Proof.
  intros Hct. destruct (ListSelected_entries [mkRequirement "name" Equals name] s)
    as (s' & Hsel & Hcfg).
  exists s'. split; [|done]. unfold Get, bind. rewrite Hsel.
  rewrite filter_fmap_list.
  rewrite (list_filter_iff _ (λ e, e.1 = name)).
  2:{ intros e. by rewrite Matches_name, entry_Name. }
  rewrite filter_by_name_absent; [done|].
  rewrite (rangeOrder_range _). intros Hin.
  apply list_elem_of_fmap in Hin as ([n c] & -> & Hin).
  apply elem_of_map_to_list in Hin. cbn in Hct. congruence.
Qed.

(** C6.  [Get] on a name that is not a recorded context returns an error
    for which [errors.IsNotFound] holds, which it does for no error of
    another kind; on a recorded name it returns, without error, the cluster
    of that context: its name, its product, and the status [List] gives it. *)
Theorem Get_NotFound_iff_unrecorded (s : State Client) (name : string) :
  (Contexts (config (ctl s)) !! name = None →
     ∃ err s', Get name s = (Err err, s') ∧ IsNotFound err = true)
  ∧ (∀ ct, Contexts (config (ctl s)) !! name = Some ct →
     ∃ cluster s',
       Get name s = (Ok cluster, s')
       ∧ Name cluster = name
       ∧ Product cluster = productFromContext ct
       ∧ cluster = entry s (name, ct))
  ∧ (∀ err, IsNotFound err = true →
     ∃ message, err = StatusError StatusReasonNotFound message).
Proof.
  split; [|split].
  - intros Hct. destruct (Get_missing s name Hct) as (s' & Hget & _).
    by exists (NewNotFound name), s'.
  - intros ct Hct. destruct (Get_recorded s name ct Hct) as (s' & Hget & _).
    exists (entry s (name, ct)), s'. split; [done|].
    destruct (entryOf_status _ _ ClientConfig NewForConfig Nodes_List
                productFromContext s (name, ct)) as (Hname & Hprod & _).
    done.
  - intros [[] message|message]; cbn; try discriminate. intros _. by exists message.
Qed.

(** C5.  [List] with a field selector returns, without error, exactly the
    entries of the full listing that the selector matches, in order: with
    the selector [product=X] the entries whose product is [X], and the empty
    list when the selector matches no entry. *)
Theorem ListWith_field_selector (s : State Client) (options : ListOptions)
    (selector : list Requirement) :
  ParseSelector (ListOptions_FieldSelector options) = inl selector →
  ∃ all clusters s',
    (listAll s).1 = Ok all
    ∧ ListWith options s = (Ok clusters, s')
    ∧ clusters = filter (λ c, Matches selector (clusterFields c) = true) all
    ∧ (∀ X, selector = [mkRequirement "product" Equals X] →
         clusters = filter (λ c, Product c = X) all)
    ∧ ((∀ c, c ∈ all → Matches selector (clusterFields c) = false) →
         clusters = []).
Proof.
  intros Hparse.
  destruct (listAll_entries s) as (s0 & Hall & _).
  destruct (ListSelected_entries selector s) as (s' & Hsel & _).
  eexists _, _, s'. split; [by rewrite Hall|]. split.
  { unfold ListWith, bind. rewrite Hparse. cbn. exact Hsel. }
  split; [done|]. split.
  - intros X ->. apply list_filter_iff. intros c. apply Matches_product.
  - intros Hnone.
    destruct (filter _ _) as [|c rest] eqn:Hfilter; [done|].
    assert (c ∈ filter (λ c, Matches selector (clusterFields c) = true)
                  (entry s <$> rangeOrder (Contexts (config (ctl s))))) as Hin
      by (rewrite Hfilter; by left).
    apply list_elem_of_filter in Hin as [Hmatch Hin].
    rewrite (Hnone c Hin) in Hmatch. discriminate.
Qed.

End Selection.

Arguments ListSelected {RestConfig Client} ClientConfig NewForConfig Nodes_List
  productFromContext rangeOrder selector s.
Arguments ListWith {RestConfig Client} ClientConfig NewForConfig Nodes_List
  productFromContext ParseSelector rangeOrder options s.
Arguments Get {RestConfig Client} ClientConfig NewForConfig Nodes_List
  productFromContext rangeOrder name s.

(** ** The fixture of the tests and [Apply] *)

(** [fakeAdmin]: what it remembers of its calls.  Its [config] and [fakeK8s]
    fields point to the fixture's configuration, whose maps the controller's
    copy shares, and to the fixture's one fake clientset. *)
Record fakeAdmin := mkFakeAdmin {
  created : option Cluster;
  createdRegistry : option RegistryT;
  deleted : option Cluster
}.

Record fakeRegistryController := mkFakeRegistryCtl {
  lastApply : option RegistryT
}.

(** The calls [Apply] makes on its collaborators and the lines it writes to
    [iostreams.ErrOut], in order. *)
Inductive Call :=
  | CallDelete (product name : string)
  | CallRegistryApply (name : string)
  | CallCreate (product name : string)
  | CallErrOut (line : string).

(** [fakeAdmin.LocalRegistryHosting]. *)
Definition fakeAdmin_LocalRegistryHosting (registry : RegistryT) : LocalRegistryHostingV1 :=
  mkLocalRegistryHosting
    ("localhost:" +:+ pretty (HostPort (Registry_Status registry)))
    "https://github.com/tilt-dev/ctlptl".

Definition withName (name : string) (cluster : Cluster) : Cluster :=
  mkCluster (Cluster_TypeMeta cluster) name (Product cluster) (Registry cluster)
    (KubernetesVersion cluster) (MinCPUs cluster) (Status cluster).

Definition withStatus (status : ClusterStatus) (cluster : Cluster) : Cluster :=
  mkCluster (Cluster_TypeMeta cluster) (Name cluster) (Product cluster)
    (Registry cluster) (KubernetesVersion cluster) (MinCPUs cluster) status.

(** Modelled from the spec: the name of the desktop product among the
    products; the product table is not among the sources. *)
Definition ProductDockerDesktop : string := "docker-desktop".

(** Modelled from the spec: the informational line of the version-triggered
    recreate, of the form the spec and [TestClusterApplyMinikubeVersion]
    give. *)
Definition deletingMessage (name want have : string) : string :=
  "Deleting cluster " +:+ name +:+ " because desired Kubernetes version ("
  +:+ want +:+ ") does not match current (" +:+ have +:+ ")".

Section Fixture.
Variables RestConfig Client : Type.
Variable ClientConfig : Config → string → RestConfig + error.
Variable NewForConfig : RestConfig → Client + error.
Variable Nodes_List : Client → list Node + error.
Variable productFromContext : Context → string.
Variable rangeOrder : gmap string Context → list (string * Context).
Hypothesis rangeOrder_range : ∀ m, range_of m (rangeOrder m).
(** The name a product gives a cluster that has none, of the product table. *)
Variable DefaultClusterName : string → string.
(** The number of attempts of the machine controller's polls. *)
Variable retryCount : nat.

(** The controller of the tests with everything its fields point to:
    [config] and [clients] (with the trace of the client cache), the admins
    by product, the version the fake discovery reports, the docker client,
    the desktop client, the registry controller, and the calls made. *)
Record World := mkWorld {
  kube : State Client;
  admins : gmap string fakeAdmin;
  GitVersion : string;
  dockerClient : fakeDockerClient;
  d4mClient : fakeD4MClient;
  registryCtl : fakeRegistryController;
  calls : list Call
}.

Definition setKube (k : State Client) (w : World) : World :=
  mkWorld k (admins w) (GitVersion w) (dockerClient w) (d4mClient w)
          (registryCtl w) (calls w).

Definition setContexts (f : gmap string Context → gmap string Context)
    (g : gmap string KubeCluster → gmap string KubeCluster) (w : World) : World :=
  let cfg := config (ctl (kube w)) in
  setKube
    (mkState
       (mkController
          (mkConfig (CurrentContext cfg) (f (Contexts cfg)) (g (Clusters cfg)))
          (clients (ctl (kube w))))
       (trace (kube w)))
    w.

Definition setAdmins (a : gmap string fakeAdmin) (w : World) : World :=
  mkWorld (kube w) a (GitVersion w) (dockerClient w) (d4mClient w)
          (registryCtl w) (calls w).

Definition setGitVersion (v : string) (w : World) : World :=
  mkWorld (kube w) (admins w) v (dockerClient w) (d4mClient w)
          (registryCtl w) (calls w).

Definition setDesktop (cd : fakeD4MClient * fakeDockerClient) (w : World) : World :=
  mkWorld (kube w) (admins w) (GitVersion w) cd.2 cd.1 (registryCtl w) (calls w).

Definition setSettings (m : GoMap) (w : World) : World :=
  let c := d4mClient w in
  setDesktop
    (mkFakeD4M m (d4m_started c) (settingsWriteCount c) (resetCount c),
     dockerClient w)
    w.

Definition setRegistryCtl (r : fakeRegistryController) (w : World) : World :=
  mkWorld (kube w) (admins w) (GitVersion w) (dockerClient w) (d4mClient w)
          r (calls w).

Definition record (c : Call) : M World unit :=
  modify (λ w,
    mkWorld (kube w) (admins w) (GitVersion w) (dockerClient w) (d4mClient w)
            (registryCtl w) (calls w ++ [c])).

(** [fakeAdmin.EnsureInstalled]. *)
Definition fakeAdmin_EnsureInstalled : M World unit := ret tt.

(** [fakeAdmin.Create], on the admin registered for [product]. *)
Definition fakeAdmin_Create (product : string) (config : Cluster)
    (registry : option RegistryT) : M World unit :=
  modify (λ w,
    setAdmins (alter (λ a, mkFakeAdmin (Some config) registry (deleted a))
                     product (admins w)) w) ;;
  modify (setContexts
    (λ contexts, <[Name config := mkContext (Name config) EmptyString EmptyString]> contexts)
    (λ clusters,
       <[Name config := mkKubeCluster ("http://" +:+ Name config +:+ ".localhost/")]>
         clusters)) ;;
  let kVersion := KubernetesVersion config in
  let kVersion := if String.eqb kVersion EmptyString then "v1.19.1" else kVersion in
  modify (setGitVersion kVersion).

(** [fakeAdmin.Delete], on the admin registered for [product]. *)
Definition fakeAdmin_Delete (product : string) (config : Cluster) : M World unit :=
  modify (λ w,
    setAdmins (alter (λ a, mkFakeAdmin (created a) (createdRegistry a) (Some config))
                     product (admins w)) w) ;;
  modify (setContexts (λ contexts, delete (Name config) contexts) (λ clusters, clusters)).

(** [fakeRegistryController.Apply]. *)
Definition fakeRegistryController_Apply (r : RegistryT) : M World RegistryT :=
  modify (setRegistryCtl (mkFakeRegistryCtl (Some r))) ;;
  ret (mkRegistry (Registry_Name r)
         (mkRegistryStatus Time.zero 5000 5000 "172.0.0.2" "fake-container-id"
                           ["bridge"])).

(** *** The machine controller *)

Definition onDesktop {A} (m : M (fakeD4MClient * fakeDockerClient) A) : M World A :=
  zoom (λ w, (d4mClient w, dockerClient w)) setDesktop m.

(** The settings map [settings()] returns is the one [lastSettings] holds:
    a reconciler that writes to it writes to the client's map. *)
Definition onSettings {A} (m : M GoMap A) : M World A :=
  zoom (λ w, lastSettings (d4mClient w)) setSettings m.

(** Modelled from the spec: the EngineUnavailable failure of the machine
    controller, whose code is not among the sources. *)
Definition errEngineUnavailable : error :=
  Errorf "timed out waiting for the engine".

(** Modelled from the spec: one attempt of the machine controller's poll,
    whether the engine's version endpoint ([ServerVersion] of the docker
    client) responds. *)
Definition engineResponds : M World bool :=
  fun w =>
    match ServerVersion (dockerClient w) with
    | (Ok _, _) => (Ok true, w)
    | (Err _, _) => (Ok false, w)
    | (Panic msg, _) => (Panic msg, w)
    end.

(** Modelled from the spec: the bounded poll of the engine version endpoint
    of the machine controller, whose code is not among the sources; the
    sleep between two attempts changes nothing here. *)
Fixpoint pollEngine (attempts : nat) : M World unit :=
  match attempts with
  | O => fail errEngineUnavailable
  | S attempts =>
      let* up := engineResponds in
      if up then ret tt else pollEngine attempts
  end.

(** Modelled from the spec: [start] of the machine controller, not among
    the sources: if the engine is not running the product is launched and
    polled. *)
Definition machineStart : M World unit :=
  let* up := engineResponds in
  if up then ret tt
  else onDesktop start ;; pollEngine retryCount.

(** Modelled from the spec: the machine controller's reconciliation of the
    desktop product, not among the sources: the product runs, Kubernetes is
    enabled and the CPU allocation meets [MinCPUs]; the settings are written
    once, and only when one of the two reconcilers asks for it, and a write
    is followed by the poll for the restart. *)
Definition ensureMachine (desired : Cluster) : M World unit :=
  machineStart ;;
  let* k8sChanged := onSettings (setK8sEnabled true) in
  let* cpuChanged := onSettings (ensureMinCPU (MinCPUs desired)) in
  if k8sChanged || cpuChanged then
    let* current := onDesktop settings in
    onDesktop (writeSettings current) ;;
    pollEngine retryCount
  else ret tt.

(** *** [Apply] *)

(** Modelled from the spec: the NotSupported failure of [Apply] for a
    product without an adapter. *)
Definition errNotSupported (product : string) : error :=
  Errorf ("product not supported: " +:+ product).

(** Modelled from the spec: step 1 of [Apply], the name of the product's
    convention for a spec that has none. *)
Definition resolveName (desired : Cluster) : Cluster :=
  if String.eqb (Name desired) EmptyString
  then withName (DefaultClusterName (Product desired)) desired
  else desired.

Definition onKube {A} (m : M (State Client) A) : M World A :=
  zoom kube setKube m.

Abbreviation getCluster name :=
  (Get ClientConfig NewForConfig Nodes_List productFromContext rangeOrder name).

(** Modelled from the spec: step 5 of [Apply], whether a cluster of the
    name exists: [Get], with NotFound read as absence. *)
Definition readExisting (name : string) : M World (option Cluster) :=
  fun w =>
    match onKube (getCluster name) w with
    | (Ok cluster, w') => (Ok (Some cluster), w')
    | (Err err, w') => if IsNotFound err then (Ok None, w') else (Err err, w')
    | (Panic msg, w') => (Panic msg, w')
    end.

(** Modelled from the spec: step 4 of [Apply]: the machine controller is
    asked when the product is the desktop one. *)
Definition machineStep (named : Cluster) : M World unit :=
  if String.eqb (Product named) ProductDockerDesktop
  then ensureMachine named else ret tt.

(** Modelled from the spec: steps 1 to 5 of [Apply], whose code is not
    among the sources: the name, the adapter of the product, its
    install-check, the machine controller for the desktop product, and the
    read of the current state; the result is the named spec, the existing
    cluster if any, and the version the cluster runs. *)
Definition prepare (desired : Cluster) : M World (Cluster * option Cluster * string) :=
  let named := resolveName desired in
  let* registered := gets (λ w, admins w !! Product named) in
  match registered with
  | None => fail (errNotSupported (Product named))
  | Some _ =>
      fakeAdmin_EnsureInstalled ;;
      machineStep named ;;
      let* existing := readExisting (Name named) in
      let* have := gets GitVersion in
      ret (named, existing, have)
  end.

(** Modelled from the spec: step 8 of [Apply]: the status read afresh, the
    current-context flag, and the hosting descriptor of the adapter when a
    registry is attached. *)
Definition finalStatus (named : Cluster) (registry : option RegistryT) : M World Cluster :=
  let* fresh := onKube (getCluster (Name named)) in
  let* current := gets (λ w, CurrentContext (config (ctl (kube w)))) in
  ret (withStatus
         (mkClusterStatus (CreationTimestamp (Status fresh))
            (String.eqb (Name named) current)
            (fakeAdmin_LocalRegistryHosting <$> registry))
         named).

(** Modelled from the spec: step 7 of [Apply]: the registry is realized
    first when the spec names one, then the adapter creates the cluster. *)
Definition createCluster (named : Cluster) : M World Cluster :=
  let* registry :=
    if String.eqb (Registry named) EmptyString then ret None
    else
      record (CallRegistryApply (Registry named)) ;;
      let* r := fakeRegistryController_Apply
                  (mkRegistry (Registry named)
                     (mkRegistryStatus Time.zero 0 0 EmptyString EmptyString [])) in
      ret (Some r) in
  record (CallCreate (Product named) (Name named)) ;;
  fakeAdmin_Create (Product named) named registry ;;
  finalStatus named registry.

(** Modelled from the spec: the test of step 6 of [Apply], a version is
    asked for and differs from the one observed. *)
Definition versionMismatch (named : Cluster) (have : string) : bool :=
  negb (String.eqb (KubernetesVersion named) EmptyString)
  && negb (String.eqb (KubernetesVersion named) have).

(** Modelled from the spec: steps 6 to 8 of [Apply]: an existing cluster of
    another version than the one asked for is deleted, the line is written
    and the cluster created; an existing cluster is otherwise returned with
    its fresh status and no adapter call; a missing one is created. *)
Definition reconcile (named : Cluster) (existing : option Cluster) (have : string)
    : M World Cluster :=
  match existing with
  | Some cluster =>
      if versionMismatch named have then
        record (CallDelete (Product named) (Name cluster)) ;;
        fakeAdmin_Delete (Product named) cluster ;;
        record (CallErrOut
                  (deletingMessage (Name named) (KubernetesVersion named) have)) ;;
        createCluster named
      else
        let* current := gets (λ w, CurrentContext (config (ctl (kube w)))) in
        ret (withStatus
               (mkClusterStatus (CreationTimestamp (Status cluster))
                  (String.eqb (Name cluster) current)
                  (LocalRegistryHosting (Status cluster)))
               cluster)
  | None => createCluster named
  end.

(** Modelled from the spec: [Controller.Apply], section 4.1, whose code is
    not among the sources, over the test doubles of the fixture. *)
Definition Apply (desired : Cluster) : M World Cluster :=
  let* '(named, existing, have) := prepare desired in
  reconcile named existing have.

(** *** The version-triggered recreate *)

(** The machine controller reads and writes the desktop client and the
    docker client and nothing else of the world. *)
Definition sameOutsideDesktop (w w' : World) : Prop :=
  kube w' = kube w ∧ admins w' = admins w ∧ GitVersion w' = GitVersion w
  ∧ registryCtl w' = registryCtl w ∧ calls w' = calls w.

Definition desktopOnly {A} (m : M World A) : Prop :=
  ∀ w, sameOutsideDesktop w (m w).2.

Lemma sameOutsideDesktop_refl (w : World) : sameOutsideDesktop w w.
Proof. by repeat split. Qed.

Lemma sameOutsideDesktop_trans (w1 w2 w3 : World) :
  sameOutsideDesktop w1 w2 → sameOutsideDesktop w2 w3 → sameOutsideDesktop w1 w3.
Proof.
  intros (Hk & Ha & Hg & Hr & Hc) (Hk' & Ha' & Hg' & Hr' & Hc').
  repeat split; congruence.
Qed.

Lemma desktopOnly_ret {A} (a : A) : desktopOnly (ret a).
Proof. intros w. apply sameOutsideDesktop_refl. Qed.

Lemma desktopOnly_fail {A} (e : error) : desktopOnly (@fail World A e).
Proof. intros w. apply sameOutsideDesktop_refl. Qed.

Lemma desktopOnly_bind {A B} (m : M World A) (k : A → M World B) :
  desktopOnly m → (∀ a, desktopOnly (k a)) → desktopOnly (bind m k).
Proof.
  intros Hm Hk w. unfold bind. specialize (Hm w).
  destruct (m w) as [[a|e|msg] w1]; cbn in *; try done.
  eapply sameOutsideDesktop_trans; [exact Hm|apply Hk].
Qed.

Lemma desktopOnly_onDesktop {A} (m : M (fakeD4MClient * fakeDockerClient) A) :
  desktopOnly (onDesktop m).
Proof.
  intros w. unfold onDesktop, zoom.
  destruct (m (d4mClient w, dockerClient w)) as [r [c d]]. by repeat split.
Qed.

Lemma desktopOnly_onSettings {A} (m : M GoMap A) : desktopOnly (onSettings m).
Proof.
  intros w. unfold onSettings, zoom.
  destruct (m (lastSettings (d4mClient w))) as [r settings']. by repeat split.
Qed.

Lemma desktopOnly_engineResponds : desktopOnly engineResponds.
Proof.
  intros w. unfold engineResponds.
  destruct (ServerVersion (dockerClient w)) as [[u|e|msg] d]; cbn;
    apply sameOutsideDesktop_refl.
Qed.

Lemma desktopOnly_pollEngine (attempts : nat) : desktopOnly (pollEngine attempts).
Proof.
  induction attempts as [|attempts IH]; cbn [pollEngine].
  - apply desktopOnly_fail.
  - apply desktopOnly_bind; [apply desktopOnly_engineResponds|].
    intros [|]; [apply desktopOnly_ret|exact IH].
Qed.

Lemma desktopOnly_ensureMachine (desired : Cluster) : desktopOnly (ensureMachine desired).
Proof.
  unfold ensureMachine, machineStart.
  repeat first
    [ apply desktopOnly_bind; [|intros ?]
    | apply desktopOnly_onDesktop
    | apply desktopOnly_onSettings
    | apply desktopOnly_engineResponds
    | apply desktopOnly_pollEngine
    | apply desktopOnly_ret
    | match goal with |- desktopOnly (if ?b then _ else _) => destruct b end ].
Qed.

Lemma desktopOnly_machineStep (named : Cluster) : desktopOnly (machineStep named).
Proof.
  unfold machineStep. destruct (String.eqb _ _).
  - apply desktopOnly_ensureMachine.
  - apply desktopOnly_ret.
Qed.

(** Only the desktop product has a machine step. *)
Lemma machineStep_other_product (named : Cluster) (w : World) :
  Product named ≠ ProductDockerDesktop → machineStep named w = (Ok tt, w).
Proof.
  intros Hother. unfold machineStep.
  by rewrite (proj2 (String.eqb_neq _ _) Hother).
Qed.

Abbreviation entryIn k e :=
  (entryOf ClientConfig NewForConfig Nodes_List productFromContext k e).

(** Steps 1 to 5 on a world where the adapter is registered, the machine
    step succeeds and the name is a recorded context. *)
Lemma prepare_existing (desired : Cluster) (w : World) (a : fakeAdmin) (ct : Context) :
  let named := resolveName desired in
  admins w !! Product named = Some a →
  Contexts (config (ctl (kube w))) !! Name named = Some ct →
  (machineStep named w).1 = Ok tt →
  ∃ w1,
    prepare desired w
    = (Ok (named, Some (entryIn (kube w) (Name named, ct)), GitVersion w), w1)
    ∧ config (ctl (kube w1)) = config (ctl (kube w))
    ∧ GitVersion w1 = GitVersion w
    ∧ calls w1 = calls w.
Proof.
  intros named Hadmin Hct Hmachine.
  unfold prepare, bind, gets, fakeAdmin_EnsureInstalled, ret. cbn [fst snd].
  fold named. rewrite Hadmin.
  pose proof (desktopOnly_machineStep named w) as (Hk & Ha & Hg & Hr & Hc).
  destruct (machineStep named w) as [r wm]. cbn in Hmachine, Hk, Ha, Hg, Hr, Hc.
  subst r. unfold readExisting, onKube, zoom. rewrite Hk.
  destruct (Get_recorded _ _ ClientConfig NewForConfig Nodes_List
              productFromContext rangeOrder rangeOrder_range (kube w)
              (Name named) ct Hct) as (s' & -> & Hcfg).
  eexists. cbn. rewrite Hg. split; [reflexivity|]. cbn. by rewrite Hcfg.
Qed.

(** The creation path: the registry first when one is named, then the
    adapter's [Create], after which the cluster runs the version asked for;
    it cannot fail over the test doubles. *)
Lemma createCluster_calls (named : Cluster) (w : World) :
  ∃ result w',
    createCluster named w = (Ok result, w')
    ∧ calls w' = calls w
        ++ (if String.eqb (Registry named) EmptyString then []
            else [CallRegistryApply (Registry named)])
        ++ [CallCreate (Product named) (Name named)]
    ∧ Name result = Name named
    ∧ GitVersion w'
      = (if String.eqb (KubernetesVersion named) EmptyString then "v1.19.1"
         else KubernetesVersion named)
    ∧ is_Some (Contexts (config (ctl (kube w'))) !! Name named).
Proof.
  unfold createCluster, finalStatus, onKube, zoom.
  destruct (String.eqb (Registry named) EmptyString);
    unfold bind, record, fakeRegistryController_Apply, fakeAdmin_Create, modify,
      ret, gets; cbn -[Get].
  all: match goal with
       | |- context [Get _ _ _ _ _ ?n ?k] =>
           destruct (Get_recorded _ _ ClientConfig NewForConfig Nodes_List
                       productFromContext rangeOrder rangeOrder_range k n
                       (mkContext n EmptyString EmptyString))
             as (s' & -> & Hcfg); [cbn; by rewrite lookup_insert_eq|]
       end.
  all: cbn; eexists _, _; split; [reflexivity|]; cbn.
  all: split; [by rewrite <- ?app_assoc|]; split; [done|]; split; [done|].
  all: cbn in Hcfg; rewrite Hcfg; cbn; by rewrite lookup_insert_eq.
Qed.

(** C2.  On a world where the adapter of the product is registered and the
    machine step succeeds, if the name of the spec is a recorded context and
    the spec asks for a Kubernetes version other than the one the cluster
    runs, [Apply] calls the adapter's [Delete] on that cluster, then writes
    the line [Deleting cluster <name> because desired Kubernetes version
    (<want>) does not match current (<have>)], then (after the registry,
    when the spec names one) calls the adapter's [Create], and returns the
    cluster without error; the cluster then runs the version asked for. *)
Theorem Apply_recreates_on_version_mismatch (desired : Cluster) (w : World)
    (a : fakeAdmin) (ct : Context) :
  let named := resolveName desired in
  let want := KubernetesVersion named in
  let have := GitVersion w in
  admins w !! Product named = Some a →
  Contexts (config (ctl (kube w))) !! Name named = Some ct →
  (machineStep named w).1 = Ok tt →
  want ≠ EmptyString →
  want ≠ have →
  ∃ result w',
    Apply desired w = (Ok result, w')
    ∧ calls w' = calls w
        ++ [CallDelete (Product named) (Name named);
            CallErrOut (deletingMessage (Name named) want have)]
        ++ (if String.eqb (Registry named) EmptyString then []
            else [CallRegistryApply (Registry named)])
        ++ [CallCreate (Product named) (Name named)]
    ∧ Name result = Name named
    ∧ GitVersion w' = want
    ∧ is_Some (Contexts (config (ctl (kube w'))) !! Name named).
Proof.
  intros named want have Hadmin Hct Hmachine Hset Hdiff.
  destruct (prepare_existing desired w a ct Hadmin Hct Hmachine)
    as (w1 & Hprep & _ & Hg1 & Hc1).
  unfold Apply, bind. rewrite Hprep. unfold reconcile, versionMismatch.
  fold named want have.
  apply String.eqb_neq in Hset, Hdiff. rewrite Hset, Hdiff. cbn [negb andb].
  unfold record, fakeAdmin_Delete, modify. cbn -[createCluster named].
  match goal with
  | |- context [createCluster named ?w2] =>
      destruct (createCluster_calls named w2)
        as (result & w' & -> & Hcalls & Hres & Hversion & Hctx)
  end.
  exists result, w'. split; [done|]. split; [|split; [done|split; [|done]]].
  - rewrite Hcalls, Hc1. cbn.
    destruct (entryOf_status _ _ ClientConfig NewForConfig Nodes_List
                productFromContext (kube w) (Name named, ct)) as (-> & _).
    cbn. by rewrite <- !app_assoc.
  - rewrite Hversion. fold want. by rewrite Hset.
Qed.

End Fixture.

Arguments World Client : clear implicits.
Arguments mkWorld {Client} kube admins GitVersion dockerClient d4mClient registryCtl calls.
Arguments kube {Client} w.
Arguments admins {Client} w.
Arguments GitVersion {Client} w.
Arguments dockerClient {Client} w.
Arguments d4mClient {Client} w.
Arguments registryCtl {Client} w.
Arguments calls {Client} w.
Arguments ensureMachine {Client} retryCount desired s.
Arguments machineStep {Client} retryCount named s.
Arguments prepare {RestConfig Client} ClientConfig NewForConfig Nodes_List
  productFromContext rangeOrder DefaultClusterName retryCount desired s.
Arguments reconcile {RestConfig Client} ClientConfig NewForConfig Nodes_List
  productFromContext rangeOrder named existing have s.
Arguments Apply {RestConfig Client} ClientConfig NewForConfig Nodes_List
  productFromContext rangeOrder DefaultClusterName retryCount desired s.

(** ** The age of a cluster without nodes *)

Section Age.
Variables RestConfig Client : Type.
Variable ClientConfig : Config → string → RestConfig + error.
Variable NewForConfig : RestConfig → Client + error.
Variable Nodes_List : Client → list Node + error.
Variable ShortHumanDuration : Z → string.

(** C9.  When the node query of a cluster returns no node,
    [populateCluster] succeeds and leaves [Status.CreationTimestamp] the
    zero time, and the table of [clustersAsTable] shows the literal
    [unknown] in the Age column of that cluster; the same holds of every
    cluster whose creation timestamp is the zero time, whatever
    [ShortHumanDuration] would print. *)
Theorem empty_node_list_age_unknown (cluster : Cluster) (s : State Client)
    (cl : Client) (o : GetOptions) :
  (client ClientConfig NewForConfig (Name cluster) s).1 = Ok cl →
  Nodes_List cl = inl [] →
  let populated :=
    (populateCluster ClientConfig NewForConfig Nodes_List (cluster, s)).2.1 in
  let table := clustersAsTable ShortHumanDuration o [populated] in
  (populateCluster ClientConfig NewForConfig Nodes_List (cluster, s)).1 = Ok tt
  ∧ CreationTimestamp (Status populated) = Time.zero
  ∧ (Column_Name <$> ColumnDefinitions table) !! 3 = Some "Age"
  ∧ (∃ row, Rows table = [row] ∧ Cells row !! 3 = Some "unknown")
  ∧ (∀ c : Cluster,
       Time.IsZero (CreationTimestamp (Status c)) = true →
       Cells (clusterRow ShortHumanDuration o c) !! 3 = Some "unknown").
Proof.
  intros Hclient Hnodes populated table. subst table populated.
  rewrite populateCluster_unfold.
  destruct (client ClientConfig NewForConfig (Name cluster) s) as [r s1].
  cbn in Hclient. subst r. rewrite Hnodes. cbn [fst snd].
  rewrite clustersAsTable_rows.
  split; [done|]. split; [done|]. split; [done|]. split.
  - eexists. split; [reflexivity|]. by apply clusterRow_zero_age.
  - intros c. apply clusterRow_zero_age.
Qed.

End Age.

(** ** The fixture of [newFixture], closed

    Concrete libraries and the configuration of the tests, on which the
    statements above are run. *)
Module TestFixture.

(** The two contexts of [newFixture]. *)
Definition config : Config :=
  mkConfig "microk8s"
    {[ "microk8s" := mkContext "microk8s-cluster" EmptyString EmptyString;
       "docker-desktop" := mkContext "docker-desktop" EmptyString EmptyString ]}
    {[ "microk8s-cluster" := mkKubeCluster "http://microk8s.localhost/";
       "docker-desktop" := mkKubeCluster "http://docker-desktop.localhost/" ]}.

(** A REST configuration and a client are known by the server they reach. *)
Definition ClientConfig (cfg : Config) (name : string) : string + error :=
  match Contexts cfg !! name with
  | None => inr (Errorf "context does not exist")
  | Some ct =>
      match Clusters cfg !! Context_Cluster ct with
      | None => inr (Errorf "cluster does not exist")
      | Some cluster => inl (Server cluster)
      end
  end.

Definition NewForConfig (restConfig : string) : string + error := inl restConfig.

(** The microk8s cluster answers with two nodes; nothing else answers. *)
Definition Nodes_List (client : string) : list Node + error :=
  if String.eqb client "http://microk8s.localhost/"
  then inl [mkNode "node-1" 1000%Z; mkNode "node-2" 400%Z]
  else inr (Errorf "connection refused").

Definition productFromContext (ct : Context) : string :=
  if String.eqb (Context_Cluster ct) "microk8s-cluster" then "microk8s"
  else Context_Cluster ct.

Definition DefaultClusterName (product : string) : string :=
  if String.eqb product "kind" then "kind-kind" else product.

Definition rangeOrder (m : gmap string Context) : list (string * Context) :=
  map_to_list m.

Lemma rangeOrder_range (m : gmap string Context) : range_of m (rangeOrder m).
Proof. unfold range_of, rangeOrder. reflexivity. Qed.

(** A parser of selectors of one term, [field=value], [field==value] or
    [field!=value]. *)
Fixpoint parseTerm (field term : string) : list Requirement + error :=
  match term with
  | EmptyString => inr (Errorf "invalid selector")
  | String "!"%char (String "="%char value) =>
      inl [mkRequirement field NotEquals value]
  | String "="%char (String "="%char value) =>
      inl [mkRequirement field DoubleEquals value]
  | String "="%char value => inl [mkRequirement field Equals value]
  | String c rest => parseTerm (field +:+ String c EmptyString) rest
  end.

Definition ParseSelector (selector : string) : list Requirement + error :=
  if String.eqb selector EmptyString then inl [] else parseTerm EmptyString selector.

Definition controller : State string :=
  mkState (ControllerWithConfig string config) [].

Definition options : GetOptions :=
  mkGetOptions (mkPrintFlags None) 5000%Z false EmptyString.

(** A stand-in for [duration.ShortHumanDuration]: the count of nanoseconds. *)
Definition ShortHumanDuration (d : Z) : string := pretty d +:+ "ns".

(** The world of [newFixture], with a fake admin registered for minikube. *)
Definition world : World string :=
  mkWorld controller {[ "minikube" := mkFakeAdmin None None None ]} "v0.0.0"
    (mkFakeDocker false 1) (mkFakeD4M NilMap false 0 0)
    (mkFakeRegistryCtl None) [].

Definition minikube (version : string) : Cluster :=
  mkCluster (mkTypeMeta EmptyString EmptyString) EmptyString "minikube"
    EmptyString version 0 zeroStatus.

End TestFixture.

(** ** The statements on the fixture *)

Lemma client_cache_by_name_witness :
  let run := client TestFixture.ClientConfig TestFixture.NewForConfig in
  let cl := "http://microk8s.localhost/" in
  (run "microk8s" TestFixture.controller).1 = Ok cl
  ∧ let s1 := (run "microk8s" TestFixture.controller).2 in
    clients (ctl s1) !! "microk8s" = Some cl
    ∧ (clients (ctl TestFixture.controller) !! "microk8s" = None →
         trace s1 = trace TestFixture.controller ++ [EvNewForConfig "microk8s"])
    ∧ (∀ (cfg' : Config) (tr' : list Event),
         let s2 := mkState (mkController cfg' (clients (ctl s1))) tr' in
         run "microk8s" s2 = (Ok cl, s2))
    ∧ (∀ (name' n : string) (s' : State string) (x : string),
         clients (ctl s') !! n = Some x →
         clients (ctl (run name' s').2) !! n = Some x).
Proof.
  assert ((client TestFixture.ClientConfig TestFixture.NewForConfig "microk8s"
             TestFixture.controller).1 = Ok "http://microk8s.localhost/") as Hfirst
    by (vm_compute; reflexivity).
  split; [exact Hfirst|].
  exact (client_cache_by_name string string TestFixture.ClientConfig
           TestFixture.NewForConfig "microk8s" TestFixture.controller
           "http://microk8s.localhost/" Hfirst).
Defined.

Lemma List_isolates_failures_witness :
  let entries := TestFixture.rangeOrder (Contexts TestFixture.config) in
  range_of (Contexts (config (ctl TestFixture.controller))) entries
  ∧ ∃ (clusters : list Cluster) (s' : State string),
      List TestFixture.ClientConfig TestFixture.NewForConfig TestFixture.Nodes_List
           TestFixture.productFromContext entries TestFixture.controller
      = (Ok clusters, s')
      ∧ length clusters = size (Contexts (config (ctl TestFixture.controller)))
      ∧ Forall2 (λ e cluster,
          Name cluster = e.1
          ∧ Product cluster = TestFixture.productFromContext e.2
          ∧ match nodesOf TestFixture.ClientConfig TestFixture.NewForConfig
                    TestFixture.Nodes_List TestFixture.controller e.1 with
            | Ok nodes =>
                Status cluster = mkClusterStatus (minNodeTime nodes) false None
            | _ => Status cluster = zeroStatus
            end) entries clusters.
Proof.
  split; [apply TestFixture.rangeOrder_range|].
  exact (List_isolates_failures string string TestFixture.ClientConfig
           TestFixture.NewForConfig TestFixture.Nodes_List
           TestFixture.productFromContext TestFixture.controller
           (TestFixture.rangeOrder (Contexts TestFixture.config))
           (TestFixture.rangeOrder_range _)).
Defined.

Lemma setK8sEnabled_idempotent_witness :
  let enabled : gmap string Value := {[ "k8sEnabled" := VBool true ]} in
  let fresh : gmap string Value := {[ "cpu" := VInt 1 ]} in
  let written := MapOf (<["k8sEnabled" := VBool true]> fresh) in
  setK8sEnabled true (MapOf enabled) = (Ok false, MapOf enabled)
  ∧ setK8sEnabled true (MapOf fresh) = (Ok true, written)
  ∧ setK8sEnabled true written = (Ok false, written).
Proof.
  split.
  - apply (proj1 (setK8sEnabled_idempotent {[ "k8sEnabled" := VBool true ]} true)).
    apply lookup_singleton_eq.
  - assert (({[ "cpu" := VInt 1 ]} : gmap string Value) !! "k8sEnabled" = None)
      as Hfresh by (by apply lookup_singleton_ne).
    destruct (proj2 (setK8sEnabled_idempotent {[ "cpu" := VInt 1 ]} true)
                (or_introl Hfresh)) as [Hwrite Hagain].
    split; [exact Hwrite|exact (Hagain true)].
Defined.

Lemma ensureMinCPU_monotonic_witness :
  let three : gmap string Value := {[ "cpu" := VInt 3 ]} in
  let one : gmap string Value := {[ "cpu" := VInt 1 ]} in
  ensureMinCPU 1 (MapOf three) = (Ok false, MapOf three)
  ∧ ensureMinCPU 3 (MapOf one) = (Ok true, MapOf (<["cpu" := VInt 3]> one)).
Proof.
  split.
  - apply (proj1 (ensureMinCPU_monotonic {[ "cpu" := VInt 3 ]} 1) 3%Z).
    + apply lookup_singleton_eq.
    + lia.
  - apply (proj1 (proj2 (ensureMinCPU_monotonic {[ "cpu" := VInt 1 ]} 3))).
    right. exists 1%Z. split; [apply lookup_singleton_eq|lia].
Defined.

Lemma ListWith_field_selector_witness :
  let listing :=
    List TestFixture.ClientConfig TestFixture.NewForConfig TestFixture.Nodes_List
         TestFixture.productFromContext
         (TestFixture.rangeOrder (Contexts (config (ctl TestFixture.controller))))
         TestFixture.controller in
  let options := mkListOptions "product=microk8s" in
  let selector := [mkRequirement "product" Equals "microk8s"] in
  TestFixture.ParseSelector (ListOptions_FieldSelector options) = inl selector
  ∧ ∃ all clusters s',
      listing.1 = Ok all
      ∧ ListWith TestFixture.ClientConfig TestFixture.NewForConfig
                 TestFixture.Nodes_List TestFixture.productFromContext
                 TestFixture.ParseSelector TestFixture.rangeOrder options
                 TestFixture.controller
        = (Ok clusters, s')
      ∧ clusters = filter (λ c, Matches selector (clusterFields c) = true) all
      ∧ (∀ X, selector = [mkRequirement "product" Equals X] →
           clusters = filter (λ c, Product c = X) all)
      ∧ ((∀ c, c ∈ all → Matches selector (clusterFields c) = false) →
           clusters = []).
Proof.
  split; [reflexivity|].
  exact (ListWith_field_selector string string TestFixture.ClientConfig
           TestFixture.NewForConfig TestFixture.Nodes_List
           TestFixture.productFromContext TestFixture.ParseSelector
           TestFixture.rangeOrder TestFixture.rangeOrder_range
           TestFixture.controller (mkListOptions "product=microk8s")
           [mkRequirement "product" Equals "microk8s"] eq_refl).
Defined.

Lemma Get_NotFound_iff_unrecorded_witness :
  let get :=
    Get TestFixture.ClientConfig TestFixture.NewForConfig TestFixture.Nodes_List
        TestFixture.productFromContext TestFixture.rangeOrder in
  let microk8s := mkContext "microk8s-cluster" EmptyString EmptyString in
  (Contexts (config (ctl TestFixture.controller)) !! "dunkees" = None
   ∧ ∃ err s', get "dunkees" TestFixture.controller = (Err err, s')
               ∧ IsNotFound err = true)
  ∧ (Contexts (config (ctl TestFixture.controller)) !! "microk8s" = Some microk8s
     ∧ ∃ cluster s',
         get "microk8s" TestFixture.controller = (Ok cluster, s')
         ∧ Name cluster = "microk8s"
         ∧ Product cluster = TestFixture.productFromContext microk8s
         ∧ cluster = entryOf TestFixture.ClientConfig TestFixture.NewForConfig
                       TestFixture.Nodes_List TestFixture.productFromContext
                       TestFixture.controller ("microk8s", microk8s)).
Proof.
  pose proof (Get_NotFound_iff_unrecorded string string TestFixture.ClientConfig
                TestFixture.NewForConfig TestFixture.Nodes_List
                TestFixture.productFromContext TestFixture.rangeOrder
                TestFixture.rangeOrder_range TestFixture.controller) as Hget.
  assert (Contexts (config (ctl TestFixture.controller)) !! "dunkees" = None)
    as Hmissing by (vm_compute; reflexivity).
  assert (Contexts (config (ctl TestFixture.controller)) !! "microk8s"
          = Some (mkContext "microk8s-cluster" EmptyString EmptyString))
    as Hrecorded by (vm_compute; reflexivity).
  split.
  - split; [exact Hmissing|]. exact (proj1 (Hget "dunkees") Hmissing).
  - split; [exact Hrecorded|]. exact (proj1 (proj2 (Hget "microk8s")) _ Hrecorded).
Defined.

Lemma populateCluster_min_timestamp_witness :
  let cluster :=
    newCluster TestFixture.productFromContext "microk8s"
      (mkContext "microk8s-cluster" EmptyString EmptyString) in
  let nodes := [mkNode "node-1" 1000%Z; mkNode "node-2" 400%Z] in
  let run :=
    populateCluster TestFixture.ClientConfig TestFixture.NewForConfig
      TestFixture.Nodes_List (cluster, TestFixture.controller) in
  run.1 = Ok tt
  ∧ run.2.1 = withCreationTimestamp (minNodeTime nodes) cluster
  ∧ minimumOf (Node_CreationTimestamp <$> nodes) (CreationTimestamp (Status run.2.1)).
Proof.
  apply (proj1 (populateCluster_min_timestamp string string TestFixture.ClientConfig
                  TestFixture.NewForConfig TestFixture.Nodes_List
                  (newCluster TestFixture.productFromContext "microk8s"
                     (mkContext "microk8s-cluster" EmptyString EmptyString))
                  TestFixture.controller)
           "http://microk8s.localhost/").
  - vm_compute; reflexivity.
  - reflexivity.
  - discriminate.
  - repeat constructor.
Defined.

(** C7 as stated fails on a node list whose first node carries the zero
    instant: the loop takes the zero running minimum for no minimum yet and
    replaces it by the next node's timestamp. *)
Lemma populateCluster_min_counterexample :
  let cluster :=
    newCluster TestFixture.productFromContext "microk8s"
      (mkContext "microk8s-cluster" EmptyString EmptyString) in
  let nodes := [mkNode "node-1" 0%Z; mkNode "node-2" 5%Z] in
  let run :=
    populateCluster TestFixture.ClientConfig TestFixture.NewForConfig
      (λ _, inl nodes) (cluster, TestFixture.controller) in
  nodes ≠ []
  ∧ run.1 = Ok tt
  ∧ CreationTimestamp (Status run.2.1) = 5%Z
  ∧ ¬ minimumOf (Node_CreationTimestamp <$> nodes)
        (CreationTimestamp (Status run.2.1)).
Proof.
  split; [discriminate|]. split; [vm_compute; reflexivity|].
  split; [vm_compute; reflexivity|].
  intros [_ Hleast].
  assert (5 ≤ 0)%Z as Habsurd; [|lia].
  change 5%Z with
    (CreationTimestamp
       (Status
          (populateCluster TestFixture.ClientConfig TestFixture.NewForConfig
             (λ _, inl [mkNode "node-1" 0%Z; mkNode "node-2" 5%Z])
             (newCluster TestFixture.productFromContext "microk8s"
                (mkContext "microk8s-cluster" EmptyString EmptyString),
              TestFixture.controller)).2.1)) at 1.
  apply Hleast. cbn. by left.
Qed.

Lemma empty_node_list_age_unknown_witness :
  let cluster :=
    newCluster TestFixture.productFromContext "microk8s"
      (mkContext "microk8s-cluster" EmptyString EmptyString) in
  let noNodes : string → list Node + error := λ _, inl [] in
  let run :=
    populateCluster TestFixture.ClientConfig TestFixture.NewForConfig noNodes
      (cluster, TestFixture.controller) in
  let table :=
    clustersAsTable TestFixture.ShortHumanDuration TestFixture.options [run.2.1] in
  (client TestFixture.ClientConfig TestFixture.NewForConfig (Name cluster)
     TestFixture.controller).1 = Ok "http://microk8s.localhost/"
  ∧ run.1 = Ok tt
  ∧ CreationTimestamp (Status run.2.1) = Time.zero
  ∧ (Column_Name <$> ColumnDefinitions table) !! 3 = Some "Age"
  ∧ (∃ row, Rows table = [row] ∧ Cells row !! 3 = Some "unknown")
  ∧ (∀ c : Cluster,
       Time.IsZero (CreationTimestamp (Status c)) = true →
       Cells (clusterRow TestFixture.ShortHumanDuration TestFixture.options c) !! 3
       = Some "unknown").
Proof.
  assert ((client TestFixture.ClientConfig TestFixture.NewForConfig "microk8s"
             TestFixture.controller).1 = Ok "http://microk8s.localhost/") as Hclient
    by (vm_compute; reflexivity).
  split; [exact Hclient|].
  exact (empty_node_list_age_unknown string string TestFixture.ClientConfig
           TestFixture.NewForConfig (λ _, inl []) TestFixture.ShortHumanDuration
           (newCluster TestFixture.productFromContext "microk8s"
              (mkContext "microk8s-cluster" EmptyString EmptyString))
           TestFixture.controller "http://microk8s.localhost/"
           TestFixture.options Hclient eq_refl).
Defined.

Lemma transformForOutput_cases_witness :
  let o := TestFixture.options in
  let flagged := mkGetOptions (mkPrintFlags (Some true)) 5000%Z false EmptyString in
  let cluster :=
    newCluster TestFixture.productFromContext "microk8s"
      (mkContext "microk8s-cluster" EmptyString EmptyString) in
  (OutputFlagSpecified flagged = true
   ∧ transformForOutput TestFixture.ShortHumanDuration flagged (ObjCluster cluster)
     = ObjCluster cluster)
  ∧ (OutputFlagSpecified o = false
     ∧ ∃ t, transformForOutput TestFixture.ShortHumanDuration o (ObjCluster cluster)
            = ObjTable t
            ∧ Column_Name <$> ColumnDefinitions t
              = ["Current"; "Name"; "Product"; "Age"; "Registry"]
            ∧ Rows t = [clusterRow TestFixture.ShortHumanDuration o cluster]).
Proof.
  split.
  - split; [reflexivity|].
    exact (proj1 (transformForOutput_cases TestFixture.ShortHumanDuration
                    (mkGetOptions (mkPrintFlags (Some true)) 5000%Z false EmptyString)
                    (ObjCluster
                       (newCluster TestFixture.productFromContext "microk8s"
                          (mkContext "microk8s-cluster" EmptyString EmptyString))))
                 eq_refl).
  - split; [reflexivity|].
    exact (proj2 (transformForOutput_cases TestFixture.ShortHumanDuration
                    TestFixture.options
                    (ObjCluster
                       (newCluster TestFixture.productFromContext "microk8s"
                          (mkContext "microk8s-cluster" EmptyString EmptyString))))
                 eq_refl).
Defined.

(** C10 as stated fails on a registry: without an output flag it is an
    object of another type than Cluster and ClusterList, and it is replaced
    by the table of [registriesAsTable]. *)
Lemma transformForOutput_registry_counterexample :
  let registry :=
    mkRegistry "ctlptl-registry"
      (mkRegistryStatus Time.zero 5000 5000 "172.0.0.2" "fake-container-id" ["bridge"]) in
  OutputFlagSpecified TestFixture.options = false
  ∧ transformForOutput TestFixture.ShortHumanDuration TestFixture.options
      (ObjRegistry registry)
    = ObjTable
        (mkTable (mkTypeMeta "metav1.k8s.io" "Table")
           [ mkColumn "Name" "string";
             mkColumn "Host Address" "int";
             mkColumn "Container Address" "string";
             mkColumn "Age" "string" ]
           [ mkRow ["ctlptl-registry"; "localhost:5000"; "172.0.0.2:5000"; "unknown"] ])
  ∧ transformForOutput TestFixture.ShortHumanDuration TestFixture.options
      (ObjRegistry registry)
    ≠ ObjRegistry registry.
Proof.
  split; [reflexivity|]. split; [vm_compute; reflexivity|]. discriminate.
Qed.

(** The third [Apply] of [TestClusterApplyMinikubeVersion]: the world after
    two applications of version v1.14.0, and the spec of version v1.15.0. *)
Lemma Apply_recreates_on_version_mismatch_witness :
  let apply :=
    Apply TestFixture.ClientConfig TestFixture.NewForConfig TestFixture.Nodes_List
          TestFixture.productFromContext TestFixture.rangeOrder
          TestFixture.DefaultClusterName 3 in
  let w := (apply (TestFixture.minikube "v1.14.0")
              (apply (TestFixture.minikube "v1.14.0") TestFixture.world).2).2 in
  let desired := TestFixture.minikube "v1.15.0" in
  (admins w !! "minikube"
   = Some (mkFakeAdmin (Some (withName "minikube" (TestFixture.minikube "v1.14.0")))
                       None None)
   ∧ Contexts (config (ctl (kube w))) !! "minikube"
     = Some (mkContext "minikube" EmptyString EmptyString)
   ∧ GitVersion w = "v1.14.0")
  ∧ ∃ result w',
      apply desired w = (Ok result, w')
      ∧ calls w' = calls w
          ++ [CallDelete "minikube" "minikube";
              CallErrOut
                "Deleting cluster minikube because desired Kubernetes version (v1.15.0) does not match current (v1.14.0)"]
          ++ []
          ++ [CallCreate "minikube" "minikube"]
      ∧ Name result = "minikube"
      ∧ GitVersion w' = "v1.15.0"
      ∧ is_Some (Contexts (config (ctl (kube w'))) !! "minikube").
Proof.
  cbv zeta.
  match goal with
  | |- (admins ?w !! _ = Some ?a ∧ _ !! _ = Some ?ct ∧ _) ∧ _ =>
      assert (admins w !! "minikube" = Some a) as Hadmin by (vm_compute; reflexivity);
      assert (Contexts (config (ctl (kube w))) !! "minikube" = Some ct) as Hct
        by (vm_compute; reflexivity);
      assert (GitVersion w = "v1.14.0") as Hversion by (vm_compute; reflexivity);
      split; [by repeat split|];
      refine (Apply_recreates_on_version_mismatch string string
                TestFixture.ClientConfig TestFixture.NewForConfig
                TestFixture.Nodes_List TestFixture.productFromContext
                TestFixture.rangeOrder TestFixture.rangeOrder_range
                TestFixture.DefaultClusterName 3
                (TestFixture.minikube "v1.15.0") w a ct Hadmin Hct eq_refl _ _)
  end.
  - discriminate.
  - rewrite Hversion. discriminate.
Defined.

(** ** The tests of [cluster_test.go] that the models above can run *)

Example TestClusterGet :
  ∃ cluster s',
    Get TestFixture.ClientConfig TestFixture.NewForConfig TestFixture.Nodes_List
        TestFixture.productFromContext TestFixture.rangeOrder "microk8s"
        TestFixture.controller
    = (Ok cluster, s')
    ∧ Name cluster = "microk8s" ∧ Product cluster = "microk8s".
Proof. eexists _, _. split; [vm_compute; reflexivity|]. by split. Qed.

Example TestClusterGetMissing :
  ∃ err s',
    Get TestFixture.ClientConfig TestFixture.NewForConfig TestFixture.Nodes_List
        TestFixture.productFromContext TestFixture.rangeOrder "dunkees"
        TestFixture.controller
    = (Err err, s')
    ∧ IsNotFound err = true.
Proof. eexists _, _. split; [vm_compute; reflexivity|]. reflexivity. Qed.

Example TestClusterListSelectorMatch :
  ∃ items s',
    ListWith TestFixture.ClientConfig TestFixture.NewForConfig TestFixture.Nodes_List
             TestFixture.productFromContext TestFixture.ParseSelector
             TestFixture.rangeOrder (mkListOptions "product=microk8s")
             TestFixture.controller
    = (Ok items, s')
    ∧ Name <$> items = ["microk8s"].
Proof. eexists _, _. split; [vm_compute; reflexivity|]. reflexivity. Qed.

Example TestClusterListSelectorNoMatch :
  ∃ s',
    ListWith TestFixture.ClientConfig TestFixture.NewForConfig TestFixture.Nodes_List
             TestFixture.productFromContext TestFixture.ParseSelector
             TestFixture.rangeOrder (mkListOptions "product=kind")
             TestFixture.controller
    = (Ok [], s').
Proof. eexists. vm_compute. reflexivity. Qed.

(** [TestClusterApplyKINDWithCluster]: a cluster with a registry. *)
Example TestClusterApplyKINDWithCluster :
  let w :=
    mkWorld TestFixture.controller {[ "kind" := mkFakeAdmin None None None ]}
      "v0.0.0" (mkFakeDocker true 1) (mkFakeD4M NilMap false 0 0)
      (mkFakeRegistryCtl None) [] in
  let desired :=
    mkCluster (mkTypeMeta EmptyString EmptyString) EmptyString "kind"
      "kind-registry" EmptyString 0 zeroStatus in
  let run :=
    Apply TestFixture.ClientConfig TestFixture.NewForConfig TestFixture.Nodes_List
          TestFixture.productFromContext TestFixture.rangeOrder
          TestFixture.DefaultClusterName 3 desired w in
  (∃ result, run.1 = Ok result
             ∧ Name result = "kind-kind" ∧ Registry result = "kind-registry")
  ∧ ((λ a, Registry_Name <$> createdRegistry a) <$> admins run.2 !! "kind")
    = Some (Some "kind-registry")
  ∧ ((λ a, ContainerPort ∘ Registry_Status <$> createdRegistry a)
       <$> admins run.2 !! "kind")
    = Some (Some 5000%Z)
  ∧ (Registry_Name <$> lastApply (registryCtl run.2)) = Some "kind-registry"
  ∧ calls run.2 = [CallRegistryApply "kind-registry"; CallCreate "kind" "kind-kind"].
Proof.
  split; [eexists; split; [vm_compute; reflexivity|by split]|].
  vm_compute. by repeat split.
Qed.

(** * Further properties of the code *)

(** ** [cluster.go]: what the client cache and [List] do to the controller *)

(** The lines handed to [klog] in a trace. *)
Definition klogLines (events : list Event) : list string :=
  omap (λ ev, match ev with EvKlog line => Some line | _ => None end) events.

(** The names [kubernetes.NewForConfig] was called for in a trace. *)
Definition builtNames (events : list Event) : list string :=
  omap (λ ev, match ev with EvNewForConfig name => Some name | _ => None end) events.

Section ControllerEffects.
Variables RestConfig Client : Type.
Variable ClientConfig : Config → string → RestConfig + error.
Variable NewForConfig : RestConfig → Client + error.
Variable Nodes_List : Client → list Node + error.
Variable productFromContext : Context → string.

Local Abbreviation clientOf := (client ClientConfig NewForConfig).
Local Abbreviation populate := (populateCluster ClientConfig NewForConfig Nodes_List).
Local Abbreviation listRange :=
  (List_range ClientConfig NewForConfig Nodes_List productFromContext).
Local Abbreviation listAt :=
  (List ClientConfig NewForConfig Nodes_List productFromContext).
Local Abbreviation nodesAt s name :=
  (nodesOf ClientConfig NewForConfig Nodes_List s name).

(** A failed call of [client] leaves the cache as it was. *)
Lemma client_Err_state (name : string) (s : State Client) (e : error) :
  (clientOf name s).1 = Err e →
  clients (ctl s) !! name = None
  ∧ ctl (clientOf name s).2 = ctl s.
Proof.
  destruct (clients (ctl s) !! name) as [cl|] eqn:Hc.
  - rewrite (client_hit _ _ _ _ _ _ _ Hc). cbn. discriminate.
  - rewrite (client_miss _ _ _ _ _ _ Hc).
    destruct (ClientConfig _ name) as [restConfig|e0]; [|done].
    destruct (NewForConfig restConfig); cbn; [discriminate|done].
Qed.

(** X1.  An error of [client] is not cached: the call leaves the
    configuration and the cache as they were, so the next call for the name
    misses again, returns the same error and, when the REST configuration
    resolves, calls [NewForConfig] a second time. *)
Theorem client_error_not_cached (name : string) (s : State Client) (e : error) :
  (clientOf name s).1 = Err e →
  let s1 := (clientOf name s).2 in
  ctl s1 = ctl s
  ∧ (clientOf name s1).1 = Err e
  ∧ (∀ restConfig, ClientConfig (config (ctl s)) name = inl restConfig →
       trace (clientOf name s1).2
       = trace s ++ [EvNewForConfig name; EvNewForConfig name]).
Proof.
  intros Herr s1. subst s1.
  destruct (client_Err_state _ _ _ Herr) as [Hmiss Hctl].
  split; [done|]. split.
  - rewrite <- Herr. apply client_result_local; by rewrite Hctl.
  - intros restConfig Hrest. revert Herr.
    rewrite (client_miss _ _ _ _ _ _ Hmiss), Hrest.
    destruct (NewForConfig restConfig) as [cl|e0] eqn:Hnew; cbn [fst snd];
      [discriminate|].
    intros _. cbn zeta. rewrite client_miss by done. cbn [ctl trace].
    rewrite Hrest, Hnew. cbn. by rewrite <- app_assoc.
Qed.

(** One entry of the loop of [List]: the state it leaves is the one the
    client lookup leaves, with the warning when the status query failed. *)
Lemma List_range_cons (name : string) (ct : Context)
    (rest : list (string * Context)) (result : list Cluster) (s : State Client) :
  ∃ cluster s1,
    listRange ((name, ct) :: rest) result s = listRange rest (result ++ [cluster]) s1
    ∧ ctl s1 = ctl (clientOf name s).2
    ∧ trace s1
      = trace (clientOf name s).2
        ++ match nodesAt s name with
           | Err err => [EvKlog (warning name err)]
           | _ => []
           end.
Proof.
  cbn [List_range]. unfold nodesOf, bind.
  pose proof (populateCluster_no_panic _ _ ClientConfig NewForConfig Nodes_List
                (newCluster productFromContext name ct) s) as Hnp.
  revert Hnp. rewrite populateCluster_unfold. cbn [Name newCluster].
  destruct (clientOf name s) as [[cl|e|msg] s1]; cbn.
  - destruct (Nodes_List cl) as [ns|e]; cbn; intros _.
    + eexists _, s1. split; [reflexivity|]. by rewrite app_nil_r.
    + eexists _, _. split; [reflexivity|]. done.
  - intros _. eexists _, _. split; [reflexivity|]. done.
  - intros Hnp. by destruct (Hnp msg).
Qed.

(** X2.  [List] never touches the configuration, never replaces or drops a
    cached client, and caches clients under names of the entries it visits
    only; this holds for any entries, in any order. *)
Theorem List_keeps_controller (entries : list (string * Context)) (s : State Client) :
  let s' := (listAt entries s).2 in
  config (ctl s') = config (ctl s)
  ∧ (∀ n x, clients (ctl s) !! n = Some x → clients (ctl s') !! n = Some x)
  ∧ (∀ n, is_Some (clients (ctl s') !! n) →
       is_Some (clients (ctl s) !! n) ∨ n ∈ entries.*1).
Proof.
  unfold List. generalize (@nil Cluster) as result. revert s.
  induction entries as [|[name ct] entries IH]; intros s result.
  - cbn. split; [done|]. split; [done|]. intros n Hn. by left.
  - destruct (List_range_cons name ct entries result s)
      as (cluster & s1 & -> & Hctl & _).
    destruct (IH s1 (result ++ [cluster])) as (Hcfg & Hkeep & Hnew).
    cbn zeta in *. rewrite Hctl in Hcfg, Hkeep, Hnew. split; [|split].
    + by rewrite Hcfg, client_config.
    + intros n x Hn. by apply Hkeep, client_keeps.
    + intros n Hn. destruct (Hnew n Hn) as [Hold|Hin].
      * destruct (decide (n = name)) as [->|Hne].
        -- right. cbn. by left.
        -- left. by rewrite client_other in Hold.
      * right. cbn. by right.
Qed.

(** X3.  When every entry [List] visits has a cached client, [List] builds
    no client and leaves the controller (configuration and cache) exactly as
    it was; the trace grows by [klog] lines only. *)
Theorem List_cached_builds_nothing (entries : list (string * Context)) (s : State Client) :
  (∀ e, e ∈ entries → is_Some (clients (ctl s) !! e.1)) →
  let s' := (listAt entries s).2 in
  ctl s' = ctl s
  ∧ builtNames (trace s') = builtNames (trace s).
Proof.
  unfold List. generalize (@nil Cluster) as result. revert s.
  induction entries as [|[name ct] entries IH]; intros s result Hcached.
  - done.
  - destruct (List_range_cons name ct entries result s)
      as (cluster & s1 & -> & Hctl & Htrace).
    destruct (Hcached (name, ct)) as [cl Hcl]; [by left|]. cbn in Hcl.
    rewrite (client_hit _ _ _ _ _ _ _ Hcl) in Hctl, Htrace. cbn in Hctl, Htrace.
    destruct (IH s1 (result ++ [cluster])) as [Hctl' Hbuilt'].
    { intros e He. rewrite Hctl. apply Hcached. by right. }
    cbn zeta. rewrite Hctl', Hbuilt', Hctl, Htrace. split; [done|].
    unfold builtNames. rewrite omap_app.
    destruct (nodesAt s name); cbn; by rewrite app_nil_r.
Qed.

Lemma client_resolution_stable (name n : string) (s : State Client) :
  (clientOf n (clientOf name s).2).1 = (clientOf n s).1.
Proof.
  destruct (decide (n = name)) as [->|Hne].
  - destruct (clients (ctl s) !! name) as [cl|] eqn:Hc.
    + rewrite (client_hit _ _ _ _ _ _ _ Hc). cbn [fst snd].
      by rewrite (client_hit _ _ _ _ _ _ _ Hc).
    + rewrite (client_miss _ _ _ _ _ _ Hc).
      destruct (ClientConfig (config (ctl s)) name) as [restConfig|e] eqn:Hrest.
      2:{ cbn [fst snd]. by rewrite (client_miss _ _ _ _ _ _ Hc), Hrest. }
      destruct (NewForConfig restConfig) as [cl|e] eqn:Hnew; cbn [fst snd].
      * rewrite (client_hit _ _ _ _ _ _ cl); [done|]. cbn.
        by rewrite lookup_insert_eq.
      * rewrite client_miss by done. cbn [ctl]. by rewrite Hrest, Hnew.
  - apply client_result_local.
    + apply client_config.
    + by apply client_other.
Qed.

(** The state after a run of calls of [client], one per name. *)
Definition afterClients (names : list string) (s : State Client) : State Client :=
  fold_left (λ s name, (clientOf name s).2) names s.

(** X4.  The cache is transparent: after any run of calls of [client], for
    any names and whatever their outcomes, a call returns for every name
    what it would have returned before them. *)
Theorem client_cache_transparent (names : list string) (n : string) (s : State Client) :
  (clientOf n (afterClients names s)).1 = (clientOf n s).1.
Proof.
  unfold afterClients. revert s.
  induction names as [|name names IH]; intros s; [done|].
  cbn [fold_left]. rewrite IH. apply client_resolution_stable.
Qed.

Lemma nodesOf_client (s : State Client) (n : string) :
  nodesAt s n
  = match (clientOf n s).1 with
    | Ok cl =>
        match Nodes_List cl with
        | inl ns => Ok ns
        | inr e => Err e
        end
    | Err e => Err e
    | Panic msg => Panic msg
    end.
Proof.
  unfold nodesOf, bind. destruct (clientOf n s) as [[cl|e|msg] s1]; cbn; try done.
  by destruct (Nodes_List cl).
Qed.

Lemma client_klogLines (name : string) (s : State Client) :
  klogLines (trace (clientOf name s).2) = klogLines (trace s).
Proof.
  destruct (clients (ctl s) !! name) as [cl|] eqn:Hc.
  - by rewrite (client_hit _ _ _ _ _ _ _ Hc).
  - rewrite (client_miss _ _ _ _ _ _ Hc).
    destruct (ClientConfig _ name) as [restConfig|e]; [|done].
    destruct (NewForConfig restConfig); cbn; unfold klogLines;
      rewrite omap_app; cbn; by rewrite app_nil_r.
Qed.

(** The warning [List] writes for an entry, if any. *)
Definition warningOf (s : State Client) (e : string * Context) : option string :=
  match nodesAt s e.1 with
  | Err err => Some (warning e.1 err)
  | _ => None
  end.

Lemma List_range_klogLines (s0 : State Client) (entries : list (string * Context)) :
  ∀ (result : list Cluster) (s : State Client),
    (∀ n, (clientOf n s).1 = (clientOf n s0).1) →
    klogLines (trace (listRange entries result s).2)
    = klogLines (trace s) ++ omap (warningOf s0) entries.
Proof.
  induction entries as [|[name ct] entries IH]; intros result s Hsame.
  - cbn. by rewrite app_nil_r.
  - destruct (List_range_cons name ct entries result s)
      as (cluster & s1 & -> & Hctl & Htrace).
    rewrite IH.
    + rewrite Htrace. unfold klogLines at 1. rewrite omap_app.
      fold (klogLines (trace (clientOf name s).2)). rewrite client_klogLines.
      rewrite <- app_assoc. f_equal. cbn [omap list_omap]. unfold warningOf at 2.
      cbn [fst]. rewrite !nodesOf_client, Hsame.
      destruct (clientOf name s0).1 as [cl|e|msg]; cbn; try done.
      by destruct (Nodes_List cl).
    + intros n. rewrite <- Hsame, <- (client_resolution_stable name n s).
      apply client_result_local; by rewrite Hctl.
Qed.

(** X5.  [List] hands [klog] exactly one line per entry whose status query
    failed, in the order the entries are visited, naming the cluster and the
    error, and no other line; the query outcomes are the ones of the state
    [List] starts from. *)
Theorem List_warns_per_failure (entries : list (string * Context)) (s : State Client) :
  klogLines (trace (listAt entries s).2)
  = klogLines (trace s) ++ omap (warningOf s) entries.
Proof. unfold List. by apply List_range_klogLines. Qed.

End ControllerEffects.

(** ** [cluster.go]: the timestamp [populateCluster] computes *)

Lemma fold_minTimeStep_member (nodes : list Node) (acc : Time.Time) :
  fold_left minTimeStep nodes acc ∈ acc :: (Node_CreationTimestamp <$> nodes).
Proof.
  revert acc. induction nodes as [|node nodes IH]; intros acc; cbn.
  - by left.
  - specialize (IH (minTimeStep acc node)).
    apply elem_of_cons in IH as [Hhead|Htail].
    + rewrite Hhead. unfold minTimeStep.
      destruct (Time.IsZero acc || Time.Before (Node_CreationTimestamp node) acc).
      * right. by left.
      * by left.
    + right. by right.
Qed.

(** X6.  The creation timestamp computed from a non-empty node list is the
    creation timestamp of one of its nodes: no other instant is ever stored,
    and in particular the zero time only when a node carries it. *)
Theorem minNodeTime_is_a_node_time (nodes : list Node) :
  nodes ≠ [] →
  ∃ node, node ∈ nodes ∧ minNodeTime nodes = Node_CreationTimestamp node.
Proof.
  destruct nodes as [|first nodes]; [done|]. intros _.
  unfold minNodeTime. cbn [fold_left]. unfold minTimeStep at 2. cbn.
  pose proof (fold_minTimeStep_member nodes (Node_CreationTimestamp first)) as Hin.
  apply elem_of_cons in Hin as [Hfirst|Hrest].
  - exists first. split; [by left|done].
  - apply list_elem_of_fmap in Hrest as (node & Heq & Hnode).
    exists node. split; [by right|done].
Qed.

(** X7.  On node lists without a zero creation timestamp the result does
    not depend on the order in which the node query returns the nodes. *)
Theorem minNodeTime_order_independent (nodes nodes' : list Node) :
  nodes ≡ₚ nodes' →
  Forall (λ node, Time.IsZero (Node_CreationTimestamp node) = false) nodes →
  minNodeTime nodes = minNodeTime nodes'.
Proof.
  intros Hperm Hall.
  destruct nodes as [|first nodes].
  { apply Permutation_nil_l in Hperm. by subst. }
  assert (nodes' ≠ []) as Hne'.
  { intros ->. by apply Permutation_nil_r in Hperm. }
  assert (Forall (λ node, Time.IsZero (Node_CreationTimestamp node) = false) nodes')
    as Hall' by (by rewrite <- Hperm).
  destruct (minNodeTime_nonzero (first :: nodes)) as [Hin Hle]; [done|done|].
  destruct (minNodeTime_nonzero nodes' Hne' Hall') as [Hin' Hle'].
  assert (Node_CreationTimestamp <$> (first :: nodes)
          ≡ₚ Node_CreationTimestamp <$> nodes') as Hts by (by rewrite Hperm).
  assert (minNodeTime (first :: nodes) ≤ minNodeTime nodes')%Z
    by (apply Hle; by rewrite Hts).
  assert (minNodeTime nodes' ≤ minNodeTime (first :: nodes))%Z
    by (apply Hle'; by rewrite <- Hts).
  lia.
Qed.

(** ** [get.go]: the tables *)

Section Tables.
Variable ShortHumanDuration : Z → string.

Local Abbreviation transform := (transformForOutput ShortHumanDuration).
Local Abbreviation clusterTable := (clustersAsTable ShortHumanDuration).
Local Abbreviation registryTable := (registriesAsTable ShortHumanDuration).

(** X8.  The tables are rectangular: every row [clustersAsTable] and
    [registriesAsTable] build has one cell per column of its table. *)
Theorem tables_are_rectangular (o : GetOptions) :
  (∀ clusters,
     Forall (λ row, length (Cells row)
                    = length (ColumnDefinitions (clusterTable o clusters)))
            (Rows (clusterTable o clusters)))
  ∧ (∀ registries,
       Forall (λ row, length (Cells row)
                      = length (ColumnDefinitions (registryTable o registries)))
              (Rows (registryTable o registries))).
Proof.
  split.
  - intros clusters. rewrite clustersAsTable_rows. cbn.
    apply Forall_fmap, Forall_forall. by intros cluster _.
  - intros registries. rewrite registriesAsTable_rows. cbn.
    apply Forall_fmap, Forall_forall. by intros registry _.
Qed.

(** X9.  [transformForOutput] is idempotent: what it returns is returned
    unchanged by a second application, with or without an output flag. *)
Theorem transformForOutput_idempotent (o : GetOptions) (obj : Object) :
  transform o (transform o obj) = transform o obj.
Proof.
  unfold transformForOutput.
  destruct (OutputFlagSpecified o); [done|]. by destruct obj.
Qed.

(** X10.  Without an output flag a single cluster prints as the list that
    holds just that cluster, and likewise a registry; and the rows of a list
    are the rows of its parts, in order. *)
Theorem tables_of_one_and_of_appended (o : GetOptions) :
  (OutputFlagSpecified o = false →
     (∀ cluster,
        transform o (ObjCluster cluster) = transform o (ObjClusterList [cluster]))
     ∧ (∀ registry,
          transform o (ObjRegistry registry)
          = transform o (ObjRegistryList [registry])))
  ∧ (∀ clusters clusters',
       Rows (clusterTable o (clusters ++ clusters'))
       = Rows (clusterTable o clusters) ++ Rows (clusterTable o clusters'))
  ∧ (∀ registries registries',
       Rows (registryTable o (registries ++ registries'))
       = Rows (registryTable o registries) ++ Rows (registryTable o registries')).
Proof.
  split; [|split].
  - intros Hflag. unfold transformForOutput. rewrite Hflag. by split.
  - intros clusters clusters'. rewrite !clustersAsTable_rows. cbn.
    apply fmap_app.
  - intros registries registries'. rewrite !registriesAsTable_rows. cbn.
    apply fmap_app.
Qed.

End Tables.

(** ** [get.go]: [ToPrinter], [Print] and [Run] *)

(** The two printers of [ToPrinter]: the table printer, or the one the
    print flags select. *)
Inductive ResourcePrinter (P : Type) :=
  | TablePrinter
  | FlagsPrinter (p : P).
Arguments TablePrinter {P}.
Arguments FlagsPrinter {P} p.

(** The calls on the analytics client. *)
Inductive AnalyticsCall :=
  | Incr (name : string)
  | Flush.

(** What the command leaves behind: the objects handed to a printer for
    [o.Out], the lines written to [o.ErrOut], the lines printed on the
    process's standard output, and the calls made on the analytics client. *)
Record Streams (P : Type) := mkStreams {
  Out : list (ResourcePrinter P * Object);
  ErrOut : list string;
  Stdout : list string;
  analytics : list AnalyticsCall
}.
Arguments mkStreams {P} Out ErrOut Stdout analytics.
Arguments Out {P} s.
Arguments ErrOut {P} s.
Arguments Stdout {P} s.
Arguments analytics {P} s.

(** How [Run] ends: it returns, or it calls [os.Exit], which runs no
    deferred call. *)
Inductive Completion :=
  | Returns
  | Exits (code : Z).

Definition newline : string := String "010"%char EmptyString.

Section Command.
Variable ShortHumanDuration : Z → string.
(** The printers: [toPrinter] of the package on the print flags, and
    [PrintObj] of a printer, whose text is the library's. *)
Variable P : Type.
Variable toPrinter : PrintFlags → P + error.
Variable PrintObj : ResourcePrinter P → Object → option error.
(** [newAnalytics] of the package, and the two controllers: their
    construction, [Get] by name and [List] by field selector. *)
Variable newAnalytics : option error.
Variables RegistryCtl ClusterCtl : Type.
Variable registry_DefaultController : RegistryCtl + error.
Variable registry_Get : RegistryCtl → string → RegistryT + error.
Variable registry_List : RegistryCtl → string → list RegistryT + error.
Variable cluster_DefaultController : ClusterCtl + error.
Variable cluster_Get : ClusterCtl → string → Cluster + error.
Variable cluster_List : ClusterCtl → string → list Cluster + error.

Definition ToPrinter (o : GetOptions) : ResourcePrinter P + error :=
  if negb (OutputFlagSpecified o) then inl TablePrinter
  else
    match toPrinter (GetOptions_PrintFlags o) with
    | inl p => inl (FlagsPrinter p)
    | inr err => inr err
    end.

Definition fprintErr (line : string) (s : Streams P) : Streams P :=
  mkStreams (Out s) (ErrOut s ++ [line]) (Stdout s) (analytics s).

Definition println (line : string) (s : Streams P) : Streams P :=
  mkStreams (Out s) (ErrOut s) (Stdout s ++ [line +:+ newline]) (analytics s).

Definition track (c : AnalyticsCall) (s : Streams P) : Streams P :=
  mkStreams (Out s) (ErrOut s) (Stdout s) (analytics s ++ [c]).

(** [Print]: the error it returns ([None] is nil) and the streams.  A nil
    object is [None]; the call of [PrintObj] is recorded in [Out] with the
    object it is given. *)
Definition Print (o : GetOptions) (obj : option Object) (s : Streams P)
    : option error * Streams P :=
  match obj with
  | None => (None, println "No resources found" s)
  | Some obj =>
      match ToPrinter o with
      | inr err => (Some err, s)
      | inl printer =>
          let printed := transformForOutput ShortHumanDuration o obj in
          (PrintObj printer printed,
           mkStreams (Out s ++ [(printer, printed)]) (ErrOut s) (Stdout s)
                     (analytics s))
      end
  end.

(** The [switch] of [Run]: the resource to print, or the exit code of an
    [os.Exit]. *)
Definition fetch (o : GetOptions) (args : list string) (s : Streams P)
    : (Object + Z) * Streams P :=
  let t := match args with t :: _ => t | [] => "cluster" end in
  if String.eqb t "registry" || String.eqb t "registries" then
    match registry_DefaultController with
    | inr err =>
        (inr 1%Z, fprintErr ("Loading controller: " +:+ Error err +:+ newline) s)
    | inl c =>
        match args with
        | _ :: name :: _ =>
            match registry_Get c name with
            | inr err =>
                if IsNotFound err && IgnoreNotFound o then (inr 0%Z, s)
                else (inr 1%Z, fprintErr (Error err +:+ newline) s)
            | inl r => (inl (ObjRegistry r), s)
            end
        | _ =>
            match registry_List c (FieldSelector o) with
            | inr err =>
                (inr 1%Z,
                 fprintErr ("List registries: " +:+ Error err +:+ newline) s)
            | inl items => (inl (ObjRegistryList items), s)
            end
        end
    end
  else if String.eqb t "cluster" || String.eqb t "clusters" then
    match cluster_DefaultController with
    | inr err =>
        (inr 1%Z, fprintErr ("Loading controller: " +:+ Error err +:+ newline) s)
    | inl c =>
        match args with
        | _ :: name :: _ =>
            match cluster_Get c name with
            | inr err =>
                if IsNotFound err && IgnoreNotFound o then (inr 0%Z, s)
                else (inr 1%Z, fprintErr (Error err +:+ newline) s)
            | inl r => (inl (ObjCluster r), s)
            end
        | _ =>
            match cluster_List c (FieldSelector o) with
            | inr err =>
                (inr 1%Z,
                 fprintErr ("List clusters: " +:+ Error err +:+ newline) s)
            | inl items => (inl (ObjClusterList items), s)
            end
        end
    end
  else
    (inr 1%Z,
     fprintErr ("Unrecognized type: " +:+ t
                +:+ ". Possible values: cluster, registry." +:+ newline) s).

(** [Run], from empty streams.  The deferred [a.Flush] runs when [Run]
    returns, and on no [os.Exit]. *)
Definition Run (o : GetOptions) (args : list string) : Completion * Streams P :=
  let s0 := mkStreams [] [] [] [] in
  match newAnalytics with
  | Some err =>
      (Exits 1, fprintErr ("analytics: " +:+ Error err +:+ newline) s0)
  | None =>
      let s1 := track (Incr "cmd.get") s0 in
      match fetch o args s1 with
      | (inr code, s2) => (Exits code, s2)
      | (inl resource, s2) =>
          match Print o (Some resource) s2 with
          | (None, s3) => (Returns, track Flush s3)
          | (Some err, s3) =>
              (Exits 1, fprintErr ("Error: " +:+ Error err +:+ newline) s3)
          end
      end
  end.

Local Abbreviation transformOf := (transformForOutput ShortHumanDuration).




Lemma transformForOutput_ext (o o' : GetOptions) (obj : Object) :
  GetOptions_PrintFlags o = GetOptions_PrintFlags o' →
  StartTime o = StartTime o' →
  transformOf o obj = transformOf o' obj.
Proof.
  intros Hflags Hstart. unfold transformForOutput, OutputFlagSpecified.
  rewrite <- Hflags.
  assert (∀ cluster, clusterRow ShortHumanDuration o cluster
                     = clusterRow ShortHumanDuration o' cluster) as Hc
    by (intros cluster; unfold clusterRow; by rewrite Hstart).
  assert (∀ registry, registryRow ShortHumanDuration o registry
                      = registryRow ShortHumanDuration o' registry) as Hr
    by (intros registry; unfold registryRow; by rewrite Hstart).
  assert (∀ clusters, clusterRow ShortHumanDuration o <$> clusters
                      = clusterRow ShortHumanDuration o' <$> clusters) as Hcs
    by (intros clusters; apply list_fmap_ext; intros; apply Hc).
  assert (∀ registries, registryRow ShortHumanDuration o <$> registries
                        = registryRow ShortHumanDuration o' <$> registries) as Hrs
    by (intros registries; apply list_fmap_ext; intros; apply Hr).
  destruct (PrintFlags_OutputFlagSpecified (GetOptions_PrintFlags o)) as [[|]|];
    destruct obj; try done;
    rewrite ?clustersAsTable_rows, ?registriesAsTable_rows;
    by rewrite ?Hcs, ?Hrs.
Qed.

Lemma Print_ext (o o' : GetOptions) (obj : option Object) (s : Streams P) :
  GetOptions_PrintFlags o = GetOptions_PrintFlags o' →
  StartTime o = StartTime o' →
  Print o obj s = Print o' obj s.
Proof.
  intros Hflags Hstart. destruct obj as [obj|]; [|done].
  unfold Print, ToPrinter, OutputFlagSpecified.
  by rewrite (transformForOutput_ext o o' obj Hflags Hstart), Hflags.
Qed.

(** X13.  The scope of two flags.  When a name is given ([args] has two
    elements or more) the field selector is not read: [Run] behaves the
    same for any selector.  When no name is given [IgnoreNotFound] is not
    read: a NotFound error of a listing exits with code 1 all the same. *)
Theorem Run_flag_scope (o o' : GetOptions) (args : list string) :
  GetOptions_PrintFlags o = GetOptions_PrintFlags o' →
  StartTime o = StartTime o' →
  (2 ≤ length args → IgnoreNotFound o = IgnoreNotFound o' → Run o args = Run o' args)
  ∧ (length args < 2 → FieldSelector o = FieldSelector o' → Run o args = Run o' args).
Proof.
  intros Hflags Hstart.
  assert (∀ s, (2 ≤ length args → IgnoreNotFound o = IgnoreNotFound o' →
                fetch o args s = fetch o' args s)
               ∧ (length args < 2 → FieldSelector o = FieldSelector o' →
                  fetch o args s = fetch o' args s)) as Hfetch.
  { intros s. unfold fetch. split.
    - intros Hlen Hignore. destruct args as [|t [|name rest]]; cbn in Hlen; try lia.
      by rewrite Hignore.
    - intros Hlen Hselector. destruct args as [|t [|name rest]]; cbn in Hlen; try lia;
        by rewrite Hselector. }
  unfold Run. split; intros Hlen Hsame;
    destruct newAnalytics as [err|]; try done.
  - rewrite (proj1 (Hfetch _) Hlen Hsame).
    destruct (fetch o' args _) as [[resource|code] s2]; [|done].
    by rewrite (Print_ext o o' _ _ Hflags Hstart).
  - rewrite (proj2 (Hfetch _) Hlen Hsame).
    destruct (fetch o' args _) as [[resource|code] s2]; [|done].
    by rewrite (Print_ext o o' _ _ Hflags Hstart).
Qed.

End Command.

(** ** [cluster_test.go]: how the test doubles compose *)

(** Both reconcilers, one after the other, with the two answers. *)
Definition k8sThenCPU (desired : Z) : M GoMap (bool * bool) :=
  let* k8s := setK8sEnabled true in
  let* cpu := ensureMinCPU desired in
  ret (k8s, cpu).



(** X15.  Two minimum CPU counts compose as their maximum: after
    [ensureMinCPU d1] and [ensureMinCPU d2] on settings whose [cpu] entry is
    [c], the entry is the greatest of [c], [d1] and [d2], each call having
    asked for a write exactly when it raised the entry. *)
Theorem ensureMinCPU_composes_as_max (entries : gmap string Value) (c d1 d2 : Z) :
  entries !! "cpu" = Some (VInt c) →
  (let* first := ensureMinCPU d1 in
   let* second := ensureMinCPU d2 in
   ret (first, second)) (MapOf entries)
  = (Ok (bool_decide (c < d1)%Z, bool_decide (Z.max c d1 < d2)%Z),
     MapOf (<["cpu" := VInt (Z.max (Z.max c d1) d2)]> entries)).
Proof.
  intros Hcpu. unfold ensureMinCPU, bind, gets, mapStore. cbn. rewrite Hcpu. cbn.
  destruct (Z.leb_spec d1 c) as [Hle1|Hlt1]; cbn.
  - rewrite Hcpu. cbn. rewrite (bool_decide_eq_false_2 (c < d1)%Z) by lia.
    replace (Z.max c d1) with c by lia.
    destruct (Z.leb_spec d2 c) as [Hle2|Hlt2]; cbn.
    + rewrite bool_decide_eq_false_2 by lia. replace (Z.max c d2) with c by lia.
      by rewrite insert_id.
    + rewrite bool_decide_eq_true_2 by lia. by replace (Z.max c d2) with d2 by lia.
  - rewrite lookup_insert_eq. cbn. rewrite (bool_decide_eq_true_2 (c < d1)%Z) by lia.
    replace (Z.max c d1) with d1 by lia.
    destruct (Z.leb_spec d2 d1) as [Hle2|Hlt2]; cbn.
    + rewrite bool_decide_eq_false_2 by lia. by replace (Z.max d1 d2) with d1 by lia.
    + rewrite bool_decide_eq_true_2 by lia. replace (Z.max d1 d2) with d2 by lia.
      by rewrite insert_insert_eq.
Qed.

(** X16.  [writeSettings] and what follows it.  When the [cpu] entry of the
    settings is an int, the write succeeds, [settings] then returns the
    settings written, the docker client reports that CPU count, and the
    write count grows by one.  When the entry is missing or of another type
    the call panics after it has replaced [lastSettings], with the CPU
    count and the write count as they were. *)
Theorem writeSettings_then_settings (m : GoMap) (c : fakeD4MClient)
    (docker : fakeDockerClient) :
  let run := writeSettings m (c, docker) in
  lastSettings run.2.1 = m
  ∧ (settings run.2).1 = Ok m
  ∧ docker_started run.2.2 = docker_started docker
  ∧ match mapGet m "cpu" with
    | Some (VInt n) =>
        run.1 = Ok tt
        ∧ ncpu run.2.2 = n
        ∧ settingsWriteCount run.2.1 = (settingsWriteCount c + 1)%Z
        ∧ (docker_started docker = true → (Info run.2.2).1 = Ok n)
    | _ =>
        (∃ msg, run.1 = Panic msg)
        ∧ ncpu run.2.2 = ncpu docker
        ∧ settingsWriteCount run.2.1 = settingsWriteCount c
    end.
Proof.
  unfold writeSettings, settings, bind, modify, gets. cbn.
  destruct (mapGet m "cpu") as [[n|b|v]|]; cbn; repeat split; eauto.
  unfold Info, bind, gets. cbn. by intros ->.
Qed.

(** X17.  [start] replaces the settings by the CPU count alone.  After it
    the docker client answers, with the CPU count it had; and whatever the
    settings held before, [setK8sEnabled] then asks for a write and
    [ensureMinCPU] asks for one exactly when the desired count exceeds the
    CPU count; neither panics, and the write of the reconciled settings
    succeeds. *)
Theorem start_then_reconcile (c : fakeD4MClient) (docker : fakeDockerClient)
    (desired : Z) :
  let started := (start (c, docker)).2 in
  (ServerVersion started.2).1 = Ok tt
  ∧ (Info started.2).1 = Ok (ncpu docker)
  ∧ d4m_started started.1 = true
  ∧ ∃ reconciled,
      k8sThenCPU desired (lastSettings started.1)
      = (Ok (true, bool_decide (ncpu docker < desired)%Z), reconciled)
      ∧ (writeSettings reconciled started).1 = Ok tt
      ∧ ncpu (writeSettings reconciled started).2.2 = Z.max (ncpu docker) desired.
Proof.
  unfold start, modify. cbn. split; [done|]. split; [done|]. split; [done|].
  unfold k8sThenCPU, setK8sEnabled, ensureMinCPU, bind, gets, mapStore. cbn.
  rewrite lookup_singleton_ne by done. cbn.
  rewrite lookup_insert_ne by done. rewrite lookup_singleton_eq. cbn.
  destruct (Z.leb_spec desired (ncpu docker)) as [Hle|Hlt]; cbn.
  - eexists. split; [by rewrite bool_decide_eq_false_2 by lia|].
    unfold writeSettings, bind, modify. cbn.
    rewrite lookup_insert_ne by done. rewrite lookup_singleton_eq. cbn.
    split; [done|lia].
  - eexists. split; [by rewrite bool_decide_eq_true_2 by lia|].
    unfold writeSettings, bind, modify. cbn.
    rewrite lookup_insert_eq. cbn. split; [done|lia].
Qed.

Section AdminDoubles.
Variable Client : Type.

Local Abbreviation create := (fakeAdmin_Create Client).
Local Abbreviation delete_ := (fakeAdmin_Delete Client).
Local Abbreviation contextsOf w := (Contexts (config (ctl (kube w)))).
Local Abbreviation clustersOf w := (Clusters (config (ctl (kube w)))).

(** [fakeRegistryController.List]; the options are not read. *)
Definition fakeRegistryController_List : M (World Client) (list RegistryT) :=
  let* last := gets (λ w, lastApply (registryCtl w)) in
  match last with
  | Some item => ret [item]
  | None => ret []
  end.


(** X19.  [fakeAdmin.Delete] of a cluster that is not recorded changes no
    context and does not fail; it still remembers the cluster as the last
    one deleted when an admin is registered for the product. *)
Theorem fakeAdmin_Delete_absent (product : string) (cluster : Cluster)
    (w : World Client) (a : fakeAdmin) :
  contextsOf w !! Name cluster = None →
  admins w !! product = Some a →
  let w1 := (delete_ product cluster w).2 in
  (delete_ product cluster w).1 = Ok tt
  ∧ config (ctl (kube w1)) = config (ctl (kube w))
  ∧ admins w1 !! product
    = Some (mkFakeAdmin (created a) (createdRegistry a) (Some cluster)).
Proof.
  intros Habsent Hadmin. unfold fakeAdmin_Delete, bind, modify. cbn.
  split; [done|]. split.
  - rewrite delete_id by done. by destruct (config (ctl (kube w))).
  - rewrite lookup_alter_eq. by rewrite Hadmin.
Qed.

(** X20.  [fakeRegistryController]: [List] returns nothing before the
    first [Apply]; after [Apply] of a registry it returns that one registry
    as it was passed in, not the registry with the made-up status that
    [Apply] returned. *)
Theorem fakeRegistry_Apply_then_List (r : RegistryT) (w : World Client) :
  let applied := fakeRegistryController_Apply Client r w in
  (lastApply (registryCtl w) = None → (fakeRegistryController_List w).1 = Ok [])
  ∧ (fakeRegistryController_List applied.2).1 = Ok [r]
  ∧ ∃ returned,
      applied.1 = Ok returned
      ∧ Registry_Name returned = Registry_Name r
      ∧ HostPort (Registry_Status returned) = 5000%Z
      ∧ ContainerPort (Registry_Status returned) = 5000%Z.
Proof.
  unfold fakeRegistryController_List, fakeRegistryController_Apply, bind, gets, modify.
  cbn. split; [by intros ->|]. split; [done|]. eexists. by repeat split.
Qed.

End AdminDoubles.

(** ** The further statements on concrete inputs *)

Module CommandFixture.

(** A client library whose construction fails. *)
Definition failingNewForConfig (restConfig : string) : string + error :=
  inr (Errorf "no client").

(** The controller after a first [List]: both contexts have a client. *)
Definition listedOnce : State string :=
  (List TestFixture.ClientConfig TestFixture.NewForConfig TestFixture.Nodes_List
        TestFixture.productFromContext
        (TestFixture.rangeOrder (Contexts TestFixture.config))
        TestFixture.controller).2.

(** Controllers for [Run]: one cluster, [microk8s], and no registry. *)
Definition toPrinter (flags : PrintFlags) : string + error := inl "yaml".

Definition PrintObj (printer : ResourcePrinter string) (obj : Object) : option error :=
  None.

Definition microk8s : Cluster :=
  newCluster TestFixture.productFromContext "microk8s"
    (mkContext "microk8s-cluster" EmptyString EmptyString).

Definition cluster_Get (c : unit) (name : string) : Cluster + error :=
  if String.eqb name "microk8s" then inl microk8s else inr (NewNotFound name).

Definition cluster_List (c : unit) (selector : string) : list Cluster + error :=
  if String.eqb selector EmptyString then inl [microk8s]
  else inr (Errorf "unsupported selector").

Definition registry_Get (c : unit) (name : string) : RegistryT + error :=
  inr (NewNotFound name).

Definition registry_List (c : unit) (selector : string) : list RegistryT + error :=
  inl [].

Definition run (o : GetOptions) (args : list string) : Completion * Streams string :=
  Run TestFixture.ShortHumanDuration string toPrinter PrintObj None unit unit
      (inl tt) registry_Get registry_List (inl tt) cluster_Get cluster_List o args.

End CommandFixture.

Lemma client_error_not_cached_witness :
  let call :=
    client TestFixture.ClientConfig CommandFixture.failingNewForConfig "microk8s" in
  let s := TestFixture.controller in
  (call s).1 = Err (Errorf "no client")
  ∧ ctl (call s).2 = ctl s
  ∧ (call (call s).2).1 = Err (Errorf "no client")
  ∧ trace (call (call s).2).2
    = trace s ++ [EvNewForConfig "microk8s"; EvNewForConfig "microk8s"].
Proof.
  assert ((client TestFixture.ClientConfig CommandFixture.failingNewForConfig
             "microk8s" TestFixture.controller).1 = Err (Errorf "no client"))
    as Herr by (vm_compute; reflexivity).
  destruct (client_error_not_cached string string TestFixture.ClientConfig
              CommandFixture.failingNewForConfig "microk8s" TestFixture.controller
              (Errorf "no client") Herr) as (Hctl & Hagain & Htrace).
  split; [exact Herr|]. split; [exact Hctl|]. split; [exact Hagain|].
  apply (Htrace "http://microk8s.localhost/"). vm_compute; reflexivity.
Defined.

Lemma List_cached_builds_nothing_witness :
  let entries := TestFixture.rangeOrder (Contexts TestFixture.config) in
  let s := CommandFixture.listedOnce in
  let s' :=
    (List TestFixture.ClientConfig TestFixture.NewForConfig TestFixture.Nodes_List
          TestFixture.productFromContext entries s).2 in
  builtNames (trace s) = ["microk8s"; "docker-desktop"]
  ∧ ctl s' = ctl s
  ∧ builtNames (trace s') = builtNames (trace s).
Proof.
  split; [vm_compute; reflexivity|].
  apply (List_cached_builds_nothing string string TestFixture.ClientConfig
           TestFixture.NewForConfig TestFixture.Nodes_List
           TestFixture.productFromContext).
  intros e He.
  assert (e.1 = "microk8s" ∨ e.1 = "docker-desktop") as [-> | ->].
  { vm_compute in He. apply elem_of_cons in He as [->|He]; [by left|].
    apply elem_of_cons in He as [->|He]; [by right|]. by apply elem_of_nil in He. }
  - vm_compute. eauto.
  - vm_compute. eauto.
Defined.

Lemma minNodeTime_is_a_node_time_witness :
  let nodes := [mkNode "node-1" 0%Z; mkNode "node-2" 5%Z] in
  ∃ node, node ∈ nodes ∧ minNodeTime nodes = Node_CreationTimestamp node.
Proof.
  apply (minNodeTime_is_a_node_time [mkNode "node-1" 0%Z; mkNode "node-2" 5%Z]).
  discriminate.
Defined.

Lemma minNodeTime_order_independent_witness :
  minNodeTime [mkNode "node-1" 1000%Z; mkNode "node-2" 400%Z]
  = minNodeTime [mkNode "node-2" 400%Z; mkNode "node-1" 1000%Z].
Proof.
  apply minNodeTime_order_independent.
  - apply Permutation_swap.
  - repeat constructor.
Defined.

Lemma tables_of_one_and_of_appended_witness :
  OutputFlagSpecified TestFixture.options = false
  ∧ transformForOutput TestFixture.ShortHumanDuration TestFixture.options
      (ObjCluster CommandFixture.microk8s)
    = transformForOutput TestFixture.ShortHumanDuration TestFixture.options
        (ObjClusterList [CommandFixture.microk8s]).
Proof.
  split; [reflexivity|].
  apply (proj1 (tables_of_one_and_of_appended TestFixture.ShortHumanDuration
                  TestFixture.options)).
  reflexivity.
Defined.

(** A named lookup reads no field selector: [get cluster dunkees] ends the
    same way under two selectors. *)
Lemma Run_flag_scope_witness :
  let o := mkGetOptions (mkPrintFlags None) 5000%Z true EmptyString in
  let o' := mkGetOptions (mkPrintFlags None) 5000%Z true "product=kind" in
  CommandFixture.run o ["cluster"; "dunkees"]
  = CommandFixture.run o' ["cluster"; "dunkees"]
  ∧ (CommandFixture.run o ["cluster"; "dunkees"]).1 = Exits 0.
Proof.
  split; [|vm_compute; reflexivity].
  apply (proj1 (Run_flag_scope TestFixture.ShortHumanDuration string
                  CommandFixture.toPrinter CommandFixture.PrintObj None unit unit
                  (inl tt) CommandFixture.registry_Get CommandFixture.registry_List
                  (inl tt) CommandFixture.cluster_Get CommandFixture.cluster_List
                  (mkGetOptions (mkPrintFlags None) 5000%Z true EmptyString)
                  (mkGetOptions (mkPrintFlags None) 5000%Z true "product=kind")
                  ["cluster"; "dunkees"] eq_refl eq_refl)).
  - cbn. lia.
  - reflexivity.
Defined.


Lemma ensureMinCPU_composes_as_max_witness :
  (let* first := ensureMinCPU 3 in
   let* second := ensureMinCPU 2 in
   ret (first, second)) (MapOf {[ "cpu" := VInt 1 ]})
  = (Ok (bool_decide (1 < 3)%Z, bool_decide (Z.max 1 3 < 2)%Z),
     MapOf (<["cpu" := VInt (Z.max (Z.max 1 3) 2)]> {[ "cpu" := VInt 1 ]})).
Proof.
  apply (ensureMinCPU_composes_as_max {[ "cpu" := VInt 1 ]} 1 3 2).
  apply lookup_singleton_eq.
Defined.

Lemma fakeAdmin_Delete_absent_witness :
  let cluster := withName "minikube" (TestFixture.minikube "v1.14.0") in
  let w1 := (fakeAdmin_Delete string "minikube" cluster TestFixture.world).2 in
  Contexts (config (ctl (kube TestFixture.world))) !! "minikube" = None
  ∧ (fakeAdmin_Delete string "minikube" cluster TestFixture.world).1 = Ok tt
  ∧ config (ctl (kube w1)) = config (ctl (kube TestFixture.world))
  ∧ admins w1 !! "minikube" = Some (mkFakeAdmin None None (Some cluster)).
Proof.
  assert (Contexts (config (ctl (kube TestFixture.world))) !! "minikube" = None)
    as Habsent by (vm_compute; reflexivity).
  split; [exact Habsent|].
  apply (fakeAdmin_Delete_absent string "minikube"
           (withName "minikube" (TestFixture.minikube "v1.14.0"))
           TestFixture.world (mkFakeAdmin None None None) Habsent).
  vm_compute; reflexivity.
Defined.
